(** * compare-video.py: a shallow embedding and its verified properties

    The script shells out to a downloader and to a metrics engine, parses
    the engine's JSON document and prints a report.

    - Values coming out of [json.loads] are modelled by the type [json].
      Python numbers keep their two representations: [int] as [Z] and
      [float] as an IEEE-754 binary64 [spec_float]; comparisons and the
      [.Nf] format work on the exact binary value.
    - [str] is modelled by [string], read as 7-bit ASCII text.
    - A reporter computation yields the lines it printed and an
      [outcome]: a value, [sys.exit(code)], or an escaping exception.
    - The process runs in a world that is a parameter, together with the
      child processes, the file system and the library functions
      ([json.loads], [tempfile.gettempdir], [os.path.join], the text of a
      [CalledProcessError], [float.__repr__], the JSON string escaper);
      its trace records every [print], [subprocess.run] and
      [os.path.exists] in order. *)

From Stdlib Require Import ZArith QArith Qabs Lqa List String Ascii Bool Lia.
From Stdlib Require Import DecimalString SpecFloat.
Import ListNotations.

Open Scope string_scope.
Open Scope Z_scope.

(* ================================================================= *)
(** ** Outcomes of Python computations *)

(** Exception classes the script can meet. *)
Inductive exn : Type :=
| AttributeError
| TypeError
| ValueError
| OverflowError
| FileNotFoundError
| OtherOSError
| UnicodeDecodeError
| RecursionError.

(** A computation returns, leaves through [sys.exit(code)], or lets an
    exception escape. *)
Inductive outcome (A : Type) : Type :=
| Ret (a : A)
| Exit (code : Z)
| Raise (e : exn).

Arguments Ret {A} a.
Arguments Exit {A} code.
Arguments Raise {A} e.

Definition obind {A B} (c : outcome A) (k : A -> outcome B) : outcome B :=
  match c with
  | Ret a => k a
  | Exit code => Exit code
  | Raise e => Raise e
  end.

Declare Scope out_scope.
Delimit Scope out_scope with out.
Notation "x <- c ;; k" := (obind c (fun x => k))
  (at level 61, c at next level, right associativity) : out_scope.

(* ================================================================= *)
(** ** Strings *)

Definition nl : string := String (ascii_of_nat 10) EmptyString.
Definition dquote : string := String (ascii_of_nat 34) EmptyString.

(** [str.upper] on 7-bit ASCII text; bytes outside [a-z] are kept. *)
Definition upper_ascii (c : ascii) : ascii :=
  let n := nat_of_ascii c in
  if (Nat.leb 97 n && Nat.leb n 122)%bool then ascii_of_nat (n - 32) else c.

Fixpoint upper (s : string) : string :=
  match s with
  | EmptyString => EmptyString
  | String c r => String (upper_ascii c) (upper r)
  end.

(** [sep.join(ls)] *)
Definition join (sep : string) (ls : list string) : string :=
  String.concat sep ls.

(** [str(n)] for a Python [int]. *)
Definition str_of_N (n : N) : string := NilZero.string_of_uint (N.to_uint n).

Definition str_of_Z (z : Z) : string :=
  if z <? 0 then "-" ++ str_of_N (Z.abs_N z) else str_of_N (Z.to_N z).

(* ================================================================= *)
(** ** Parsed JSON documents *)

(** What [json.loads] builds: [None], [bool], [int], [float], [str],
    [list] and [dict].  A dict is kept as the list of its items in
    insertion order. *)
#[warnings="-register-all"]
Inductive json : Type :=
| JNull
| JBool (b : bool)
| JInt (z : Z)
| JFloat (f : spec_float)
| JStr (s : string)
| JArr (l : list json)
| JObj (d : list (string * json)).

Fixpoint dict_find (k : string) (d : list (string * json)) : option json :=
  match d with
  | [] => None
  | (k', v) :: r => if String.eqb k k' then Some v else dict_find k r
  end.

(** [d.get(k, default)] *)
Definition dict_get (d : list (string * json)) (k : string) (default : json) : json :=
  match dict_find k d with
  | Some v => v
  | None => default
  end.

(** [k in d] *)
Definition dict_mem (k : string) (d : list (string * json)) : bool :=
  match dict_find k d with
  | Some _ => true
  | None => false
  end.

(** Truth value of an object in a condition. *)
Definition truthy (j : json) : bool :=
  match j with
  | JNull => false
  | JBool b => b
  | JInt z => negb (z =? 0)
  | JFloat (S754_zero _) => false
  | JFloat _ => true
  | JStr EmptyString => false
  | JStr _ => true
  | JArr [] => false
  | JArr _ => true
  | JObj [] => false
  | JObj _ => true
  end.

(* ================================================================= *)
(** ** Numbers: exact values and comparisons *)

(** The value of a number on the extended real line. *)
Inductive xreal : Type :=
| XNaN
| XNegInf
| XFin (q : Q)
| XPosInf.

(** [m * 2^e] for a positive mantissa. *)
Definition mag_Q (m : positive) (e : Z) : Q :=
  match e with
  | Z0 => Zpos m # 1
  | Zpos p => (Zpos m * 2 ^ Zpos p) # 1
  | Zneg p => Zpos m # (2 ^ p)%positive
  end.

Definition float_value (f : spec_float) : xreal :=
  match f with
  | S754_nan => XNaN
  | S754_infinity s => if s then XNegInf else XPosInf
  | S754_zero _ => XFin 0
  | S754_finite s m e => XFin (if s then Qopp (mag_Q m e) else mag_Q m e)
  end.

(** [bool] is a subclass of [int]: [True] is 1 and [False] is 0. *)
Definition json_value (j : json) : option xreal :=
  match j with
  | JBool b => Some (XFin (if b then 1 else 0))
  | JInt z => Some (XFin (inject_Z z))
  | JFloat f => Some (float_value f)
  | _ => None
  end.

(** [a < b] on numbers: exact, and false as soon as a NaN is involved. *)
Definition x_lt (a b : xreal) : bool :=
  match a, b with
  | XNaN, _ | _, XNaN => false
  | _, XNegInf => false
  | XNegInf, _ => true
  | XPosInf, _ => false
  | XFin _, XPosInf => true
  | XFin p, XFin q => match Qcompare p q with Lt => true | _ => false end
  end.

(** [a < b] on parsed values.  Numbers compare by value and strings
    by code unit.  Every other pair is reported as [TypeError]; this
    departs from Python for two lists, which it compares element-wise:
    the embedding is exact on documents whose per-frame values are not
    lists. *)
Definition py_lt (a b : json) : outcome bool :=
  match json_value a, json_value b with
  | Some x, Some y => Ret (x_lt x y)
  | _, _ =>
      match a, b with
      | JStr s, JStr t => Ret (String.ltb s t)
      | _, _ => Raise TypeError
      end
  end.

(* ================================================================= *)
(** ** Fixed-point formatting: the [.Nf] format specifier *)

(** Round a non-negative rational to the nearest integer, ties to even. *)
Definition round_half_even (q : Q) : Z :=
  let n := Qnum q in
  let d := Zpos (Qden q) in
  let fl := n / d in
  match (2 * (n mod d)) ?= d with
  | Lt => fl
  | Gt => fl + 1
  | Eq => if Z.even fl then fl else fl + 1
  end.

Definition digit (z : Z) : string := str_of_N (Z.to_N z).

(** The [n] low decimal digits of [x], most significant first. *)
Fixpoint frac_digits (n : nat) (x : Z) : string :=
  match n with
  | O => EmptyString
  | S k => frac_digits k (x / 10) ++ digit (x mod 10)
  end.

Definition sign_str (s : bool) : string := if s then "-" else EmptyString.

(** Digits of a scaled magnitude [N = |x| * 10^n], already rounded. *)
Definition fixed_digits (n : nat) (N : Z) : string :=
  str_of_Z (N / 10 ^ Z.of_nat n) ++
  match n with
  | O => EmptyString
  | _ => "." ++ frac_digits n N
  end.

(** [format(f, '.nf')] for a float: the exact binary value is rounded
    half-to-even at the [n]-th decimal; the sign bit is printed even when
    the digits are all zero. *)
Definition format_float (n : nat) (f : spec_float) : string :=
  match f with
  | S754_nan => "nan"
  | S754_infinity s => sign_str s ++ "inf"
  | S754_zero s => sign_str s ++ fixed_digits n 0
  | S754_finite s m e =>
      sign_str s ++
      fixed_digits n (round_half_even (Qmult (mag_Q m e) (inject_Z (10 ^ Z.of_nat n))))
  end.

(** [float(z)] for an [int]: nearest binary64, ties to even. *)
Definition float_of_int (z : Z) : outcome spec_float :=
  match binary_normalize 53 1024 z 0 false with
  | S754_infinity _ => Raise OverflowError
  | f => Ret f
  end.

(** [f"{v:.nf}"].  An [int] (or [bool]) is converted to [float] first; a
    [str] rejects the format code, the other types reject any format
    string. *)
Definition format_f (n : nat) (v : json) : outcome string :=
  match v with
  | JFloat f => Ret (format_float n f)
  | JInt z => (f <- float_of_int z ;; Ret (format_float n f))%out
  | JBool b => (f <- float_of_int (if b then 1 else 0) ;; Ret (format_float n f))%out
  | JStr _ => Raise ValueError
  | JNull | JArr _ | JObj _ => Raise TypeError
  end.

(* ================================================================= *)
(** ** The quality tier (lines 81-84) *)

Definition quality_tier (vmaf_score : json) : outcome string :=
  (b20 <- py_lt vmaf_score (JInt 20) ;;
   if b20 then Ret "Bad" else
   b40 <- py_lt vmaf_score (JInt 40) ;;
   if b40 then Ret "Poor" else
   b60 <- py_lt vmaf_score (JInt 60) ;;
   if b60 then Ret "Fair" else
   b80 <- py_lt vmaf_score (JInt 80) ;;
   if b80 then Ret "Good" else Ret "Excellent")%out.

(** 92.5 and the binary64 nearest to 45.12345. *)
Definition f_92_5 : spec_float := S754_finite false 6509108836433920 (-46).
Definition f_45_12345 : spec_float := S754_finite false 6350561018927225 (-47).

(* ================================================================= *)
(** ** Printing computations *)

(** A reporter computation: the arguments of the [print] calls made so
    far, in order, and how the computation ended. *)
Definition Pr (A : Type) : Type := (list string * outcome A)%type.

Definition pret {A} (a : A) : Pr A := ([], Ret a).

Definition pbind {A B} (c : Pr A) (k : A -> Pr B) : Pr B :=
  match c with
  | (out, Ret a) => let (out', r) := k a in ((out ++ out')%list, r)
  | (out, Exit code) => (out, Exit code)
  | (out, Raise e) => (out, Raise e)
  end.

Definition print (s : string) : Pr unit := ([s], Ret tt).

Definition lift {A} (o : outcome A) : Pr A := ([], o).

Declare Scope pr_scope.
Delimit Scope pr_scope with pr.
Notation "x <- c ;; k" := (pbind c (fun x => k))
  (at level 61, c at next level, right associativity) : pr_scope.
Notation "c ;; k" := (pbind c (fun _ => k))
  (at level 61, right associativity) : pr_scope.

(* ================================================================= *)
(** ** Built-ins used on the per-frame records *)

(** [len(x)] *)
Definition py_len (j : json) : outcome nat :=
  match j with
  | JArr l => Ret (List.length l)
  | JObj d => Ret (List.length d)
  | JStr s => Ret (String.length s)
  | _ => Raise TypeError
  end.

Fixpoint chars (s : string) : list json :=
  match s with
  | EmptyString => []
  | String c r => JStr (String c EmptyString) :: chars r
  end.

(** The items a [for] loop or a generator expression draws from [x]. *)
Definition py_iter (j : json) : outcome (list json) :=
  match j with
  | JArr l => Ret l
  | JObj d => Ret (map (fun kv => JStr (fst kv)) d)
  | JStr s => Ret (chars s)
  | _ => Raise TypeError
  end.

(** [frame.get('metrics', {}).get('vmaf', 0)] *)
Definition frame_vmaf (frame : json) : outcome json :=
  match frame with
  | JObj fd =>
      match dict_get fd "metrics" (JObj []) with
      | JObj md => Ret (dict_get md "vmaf" (JInt 0))
      | _ => Raise AttributeError
      end
  | _ => Raise AttributeError
  end.

(** [min(g(x) for x in xs)]: the generator is drawn one item at a time,
    and an item replaces the current best only when it is strictly
    smaller. *)
Fixpoint min_loop (best : json) (frames : list json) : outcome json :=
  match frames with
  | [] => Ret best
  | fr :: rest =>
      (v <- frame_vmaf fr ;;
       b <- py_lt v best ;;
       min_loop (if b then v else best) rest)%out
  end.

Definition py_min (frames : list json) : outcome json :=
  match frames with
  | [] => Raise ValueError
  | fr :: rest => (v <- frame_vmaf fr ;; min_loop v rest)%out
  end.

(** [max(...)]: an item replaces the current best only when it is
    strictly greater. *)
Fixpoint max_loop (best : json) (frames : list json) : outcome json :=
  match frames with
  | [] => Ret best
  | fr :: rest =>
      (v <- frame_vmaf fr ;;
       b <- py_lt best v ;;
       max_loop (if b then v else best) rest)%out
  end.

Definition py_max (frames : list json) : outcome json :=
  match frames with
  | [] => Raise ValueError
  | fr :: rest => (v <- frame_vmaf fr ;; max_loop v rest)%out
  end.

(* ================================================================= *)
(** ** [json.dumps(data, indent=2)] *)

Section Dumps.

(** [float.__repr__] on finite floats and the string escaper of the
    [json] package are library code; they are left abstract. *)
Variable float_repr : spec_float -> string.
Variable encode_basestring_ascii : string -> string.

Definition floatstr (f : spec_float) : string :=
  match f with
  | S754_nan => "NaN"
  | S754_infinity false => "Infinity"
  | S754_infinity true => "-Infinity"
  | _ => float_repr f
  end.

Fixpoint indent_str (level : nat) : string :=
  match level with
  | O => EmptyString
  | S k => "  " ++ indent_str k
  end.

(** The encoder walks the document; a non-empty container puts each
    item on a line of its own, one level deeper, and closes on a line
    at the current level. *)
Fixpoint iterencode (level : nat) (j : json) : string :=
  match j with
  | JNull => "null"
  | JBool true => "true"
  | JBool false => "false"
  | JInt z => str_of_Z z
  | JFloat f => floatstr f
  | JStr s => encode_basestring_ascii s
  | JArr [] => "[]"
  | JArr l =>
      let newline_indent := nl ++ indent_str (S level) in
      "[" ++ newline_indent
          ++ join ("," ++ newline_indent) (map (iterencode (S level)) l)
          ++ nl ++ indent_str level ++ "]"
  | JObj [] => "{}"
  | JObj d =>
      let newline_indent := nl ++ indent_str (S level) in
      "{" ++ newline_indent
          ++ join ("," ++ newline_indent)
               (map (fun kv => match kv with
                               | (k, v) => encode_basestring_ascii k ++ ": "
                                             ++ iterencode (S level) v
                               end) d)
          ++ nl ++ indent_str level ++ "}"
  end.

Definition json_dumps (data : json) : string := iterencode 0 data.

(* =============================================================== *)
(** ** The reporter: [display_results] *)

Definition str_of_nat (n : nat) : string := str_of_N (N.of_nat n).

Definition legend : list string :=
  [ nl ++ "=== VMAF SCORE INTERPRETATION ===";
    "0-20:   Bad quality";
    "20-40:  Poor quality";
    "40-60:  Fair quality";
    "60-80:  Good quality";
    "80-100: Excellent quality" ].

Fixpoint print_all (lines : list string) : Pr unit :=
  match lines with
  | [] => pret tt
  | l :: r => (print l ;; print_all r)%pr
  end.

(** Lines 69-85. *)
Definition display_vmaf_score (d : list (string * json)) : Pr unit :=
  let vmaf_score := dict_get d "mean" JNull in
  if truthy vmaf_score then
    (s <- lift (format_f 2 vmaf_score) ;;
     print ("VMAF Score: " ++ s ++ " / 100.0") ;;
     print_all legend ;;
     quality_tier <- lift (quality_tier vmaf_score) ;;
     print (nl ++ "This video's quality is rated as: " ++ quality_tier))%pr
  else pret tt.

(** Lines 88-92. *)
Definition display_vmaf_frames (d : list (string * json)) : Pr unit :=
  if (dict_mem "frames" d && truthy (dict_get d "frames" JNull))%bool then
    let frames := dict_get d "frames" JNull in
    (print (nl ++ "=== Frame-by-Frame Details ===") ;;
     n <- lift (py_len frames) ;;
     print ("Analyzed " ++ str_of_nat n ++ " frames") ;;
     items <- lift (py_iter frames) ;;
     lo <- lift (py_min items) ;;
     slo <- lift (format_f 2 lo) ;;
     print ("Min VMAF: " ++ slo) ;;
     items' <- lift (py_iter frames) ;;
     hi <- lift (py_max items') ;;
     shi <- lift (format_f 2 hi) ;;
     print ("Max VMAF: " ++ shi))%pr
  else pret tt.

(** Lines 96-98. *)
Fixpoint display_components (metric : string) (items : list (string * json))
  : Pr unit :=
  match items with
  | [] => pret tt
  | (component, value) :: rest =>
      ((if negb (String.eqb component "frames") then
          s <- lift (format_f 4 value) ;;
          print (upper metric ++ " " ++ component ++ ": " ++ s)
        else pret tt) ;;
       display_components metric rest)%pr
  end.

(** The body of the [for metric, data in results.items()] loop. *)
Definition display_metric (metric : string) (data : json) : Pr unit :=
  (print ("=== " ++ upper metric ++ " Results ===") ;;
   (if String.eqb metric "vmaf" then
      match data with
      | JObj d => (display_vmaf_score d ;; display_vmaf_frames d)
      | _ => lift (Raise AttributeError)
      end
    else if (String.eqb metric "psnr" || String.eqb metric "ssim")%bool then
      match data with
      | JObj d => display_components metric d
      | _ => lift (Raise AttributeError)
      end
    else print (json_dumps data)) ;;
   print EmptyString)%pr.

Fixpoint display_items (items : list (string * json)) : Pr unit :=
  match items with
  | [] => pret tt
  | (metric, data) :: rest =>
      (display_metric metric data ;; display_items rest)%pr
  end.

Definition display_results (results : json) : Pr unit :=
  (print (nl ++ "=== VIDEO QUALITY ASSESSMENT RESULTS ===" ++ nl) ;;
   match results with
   | JObj items => display_items items
   | _ => lift (Raise AttributeError)
   end)%pr.

End Dumps.

(* ================================================================= *)
(** ** The process and its environment *)

(** What the script does to the outside world, in order. *)
Inductive event : Type :=
| EPrint (line : string)
| ERun (cmd : list string)
| EExists (path : string).

(** How [subprocess.run(cmd, check=True)] ends: the child exits zero, the
    child exits non-zero ([CalledProcessError]), or the call raises
    something else: [FileNotFoundError] when the executable is missing,
    another [OSError], or a decoding error on the captured output. *)
Inductive run_result : Type :=
| Completed (stdout stderr : string)
| CalledProcessError (returncode : Z) (stdout stderr : string)
| RunRaised (e : exn).

(** How [json.loads(text)] ends: it returns the document, it raises
    [JSONDecodeError] (the one exception line 56 catches), or it raises
    something else, such as [ValueError] on an integer literal beyond the
    interpreter's digit limit or [RecursionError] on deep nesting. *)
Inductive loads_result : Type :=
| Parsed (j : json)
| DecodeError
| LoadsRaised (e : exn).

(** The namespace [parser.parse_args()] returns. *)
Record Args : Type := mkArgs {
  reference : option string;
  youtube : option string;
  distorted : string;
  youtube_output : option string;
  metrics : list string
}.

Definition is_downloader_call (e : event) : bool :=
  match e with
  | ERun (prog :: _) => String.eqb prog "yt-dlp"
  | _ => false
  end.

Definition is_engine_call (e : event) : bool :=
  match e with
  | ERun (prog :: _) => String.eqb prog "ffmpeg-quality-metrics"
  | _ => false
  end.

Definition is_exists_check (e : event) : bool :=
  match e with
  | EExists _ => true
  | _ => false
  end.

Definition is_run (e : event) : bool :=
  match e with
  | ERun _ => true
  | _ => false
  end.

Declare Scope io_scope.
Delimit Scope io_scope with io.

Section Orchestration.

(** The operating system and the libraries are parameters: the state of
    the world, what running a command does to it, which paths exist,
    where temporary files go, and the JSON parser. *)
Variable World : Type.
Variable subprocess_run : list string -> World -> World * run_result.
Variable os_path_exists : string -> World -> bool.
Variable gettempdir : World -> string.
Variable os_path_join : string -> string -> string.
Variable json_loads : string -> loads_result.
Variable str_CalledProcessError : list string -> Z -> string.
Variable float_repr : spec_float -> string.
Variable encode_basestring_ascii : string -> string.

Definition IO (A : Type) : Type := World -> World * list event * outcome A.

Definition ret {A} (a : A) : IO A := fun w => (w, [], Ret a).

Definition bind {A B} (c : IO A) (k : A -> IO B) : IO B :=
  fun w =>
    match c w with
    | (w1, l1, Ret a) =>
        match k a w1 with
        | (w2, l2, r) => (w2, (l1 ++ l2)%list, r)
        end
    | (w1, l1, Exit code) => (w1, l1, Exit code)
    | (w1, l1, Raise e) => (w1, l1, Raise e)
    end.

Notation "x <- c ;; k" := (bind c (fun x => k))
  (at level 61, c at next level, right associativity) : io_scope.
Notation "c ;; k" := (bind c (fun _ => k))
  (at level 61, right associativity) : io_scope.

Definition io_print (s : string) : IO unit := fun w => (w, [EPrint s], Ret tt).
Definition sys_exit {A} (code : Z) : IO A := fun w => (w, [], Exit code).
Definition io_raise {A} (e : exn) : IO A := fun w => (w, [], Raise e).

Definition run (cmd : list string) : IO run_result :=
  fun w => let (w', r) := subprocess_run cmd w in (w', [ERun cmd], Ret r).

Definition path_exists (path : string) : IO bool :=
  fun w => (w, [EExists path], Ret (os_path_exists path w)).

Definition tempdir : IO string := fun w => (w, [], Ret (gettempdir w)).

(** Run a reporter computation: its lines go to standard output. *)
Definition report {A} (p : Pr A) : IO A :=
  fun w => (w, map EPrint (fst p), snd p).

Definition download_youtube_video (url : string) (output_path : option string)
  : IO string :=
  (output_path <- match output_path with
                  | None =>
                      temp_dir <- tempdir ;;
                      ret (os_path_join temp_dir "youtube_download.mp4")
                  | Some p => ret p
                  end ;;
   io_print ("Downloading YouTube video from: " ++ url) ;;
   io_print ("Saving to: " ++ output_path) ;;
   let cmd := ["yt-dlp"; "-f"; "bestvideo[ext=mp4]+bestaudio[ext=m4a]/mp4";
               url; "-o"; output_path] in
   r <- run cmd ;;
   match r with
   | Completed _ _ => ret output_path
   | CalledProcessError code _ _ =>
       io_print ("Error downloading YouTube video: "
                   ++ str_CalledProcessError cmd code) ;;
       sys_exit 1
   | RunRaised FileNotFoundError =>
       io_print "Error: yt-dlp not found. Install it with: pip install yt-dlp" ;;
       sys_exit 1
   | RunRaised e => io_raise e
   end)%io.

Definition engine_cmd (reference_video distorted_video : string)
           (metrics : list string) : list string :=
  (["ffmpeg-quality-metrics"; reference_video; distorted_video; "--metrics"]
     ++ metrics)%list.

Definition run_video_comparison (reference_video distorted_video : string)
           (metrics : option (list string)) : IO json :=
  let metrics := match metrics with None => ["vmaf"] | Some m => m end in
  let metrics_str := join " " metrics in
  let cmd := engine_cmd reference_video distorted_video metrics in
  (io_print "Running comparison between:" ;;
   io_print ("Reference:  " ++ reference_video) ;;
   io_print ("Distorted:  " ++ distorted_video) ;;
   io_print ("Using metrics: " ++ metrics_str) ;;
   r <- run cmd ;;
   match r with
   | Completed stdout _ =>
       match json_loads stdout with
       | Parsed j => ret j
       | DecodeError =>
           io_print ("Error parsing output. Raw output: " ++ stdout) ;;
           sys_exit 1
       | LoadsRaised e => io_raise e
       end
   | CalledProcessError code _ stderr =>
       io_print ("Error running ffmpeg-quality-metrics: "
                   ++ str_CalledProcessError cmd code) ;;
       io_print ("Command output: " ++ stderr) ;;
       sys_exit 1
   | RunRaised e => io_raise e
   end)%io.

(** Lines 126-130.  [if args.youtube:] is a truth test: it fails for an
    absent option and for an empty URL alike. *)
Definition resolve_reference (args : Args) : IO (option string) :=
  match youtube args with
  | Some url =>
      if negb (String.eqb url EmptyString) then
        (p <- download_youtube_video url (youtube_output args) ;; ret (Some p))%io
      else ret (reference args)
  | None => ret (reference args)
  end.

(** Lines 133-136.  [os.path.exists(None)] raises [TypeError]. *)
Fixpoint check_files (paths : list (option string)) : IO unit :=
  match paths with
  | [] => ret tt
  | None :: _ => io_raise TypeError
  | Some video_path :: rest =>
      (found <- path_exists video_path ;;
       if negb found then
         io_print ("Error: Video file not found: " ++ video_path) ;;
         sys_exit 1
       else check_files rest)%io
  end.

(** Lines 125-142: [main] from the point where [parser.parse_args()]
    has returned [args].  The parser's own exits (code 2 on a usage
    error, code 0 on [--help]) belong to argparse and come before. *)
Definition main (args : Args) : IO unit :=
  (reference_video <- resolve_reference args ;;
   check_files [reference_video; Some (distorted args)] ;;
   match reference_video with
   | Some r =>
       results <- run_video_comparison r (distorted args) (Some (metrics args)) ;;
       report (display_results float_repr encode_basestring_ascii results)
   | None => io_raise TypeError  (* not reached: the loop above has raised *)
   end)%io.

End Orchestration.

(* ================================================================= *)
(** ** Vocabulary of the statements *)

(** [p < q] as a boolean. *)
Definition Qltb (p q : Q) : bool :=
  match Qcompare p q with Lt => true | _ => false end.

(** The tier as a function of the exact value of the score. *)
Definition tier_of (q : Q) : string :=
  if Qltb q 20 then "Bad"
  else if Qltb q 40 then "Poor"
  else if Qltb q 60 then "Fair"
  else if Qltb q 80 then "Good"
  else "Excellent".

(** Lines of the score part of the report. *)
Definition is_score_line (line : string) : bool :=
  String.prefix "VMAF Score: " line.

Definition is_tier_line (line : string) : bool :=
  String.prefix (nl ++ "This video's quality is rated as: ") line.

Definition banner : string :=
  nl ++ "=== VIDEO QUALITY ASSESSMENT RESULTS ===" ++ nl.

Arguments pbind : simpl never.
Arguments print : simpl never.
Arguments lift : simpl never.
Arguments pret : simpl never.

(** The [.nf] specifier accepts [v]. *)
Definition accepts_f (n : nat) (v : json) : bool :=
  match format_f n v with Ret _ => true | _ => false end.

(** The text [f"{v:.nf}"] when the specifier accepts [v]. *)
Definition fmt (n : nat) (v : json) : string :=
  match format_f n v with Ret s => s | _ => EmptyString end.

(** [v] is a number with the finite value [q] that [.2f] prints. *)
Definition score (v : json) (q : Q) : Prop :=
  json_value v = Some (XFin q) /\ accepts_f 2 v = true.

(** A well-formed per-frame record: an object whose 'metrics', when
    present, is an object whose 'vmaf', when present, is a finite number. *)
Definition frame_ok (frame : json) : bool :=
  match frame_vmaf frame with
  | Ret v =>
      match json_value v with
      | Some (XFin _) => accepts_f 2 v
      | _ => false
      end
  | _ => false
  end.

(** The lines the component loop prints for a "psnr" or "ssim" object. *)
Definition component_lines (metric : string) (d : list (string * json))
  : list string :=
  map (fun kv => upper metric ++ " " ++ fst kv ++ ": " ++ fmt 4 (snd kv))
      (filter (fun kv => negb (String.eqb (fst kv) "frames")) d).

Definition component_ok (kv : string * json) : bool :=
  (String.eqb (fst kv) "frames" || accepts_f 4 (snd kv))%bool.

(* ================================================================= *)
(** ** Sample documents *)

(** 90.0 and 95.0 *)
Definition f_90 : spec_float := S754_finite false 6333186975989760 (-46).
Definition f_95 : spec_float := S754_finite false 6685030696878080 (-46).

(** [m * 2^e] is the binary64 nearest to the rational [x]: a 53-bit
    mantissa, less than half a unit in the last place away. *)
Definition nearest_binary64 (x : Q) (m : positive) (e : Z) : Prop :=
  (2 ^ 52 <= Zpos m < 2 ^ 53) /\
  (Qabs (mag_Q m e - x) < mag_Q 1 (e - 1))%Q.

Definition frame_of (f : spec_float) : json :=
  JObj [("metrics", JObj [("vmaf", JFloat f)])].

(** {"vmaf": {"mean": 92.5, "frames": [{"metrics": {"vmaf": 90.0}},
                                       {"metrics": {"vmaf": 95.0}}]}} *)
Definition doc_vmaf : json :=
  JObj [("vmaf", JObj [("mean", JFloat f_92_5);
                       ("frames", JArr [frame_of f_90; frame_of f_95])])].

(** {"vmaf": {"mean": 0.0}} *)
Definition doc_vmaf_zero : json :=
  JObj [("vmaf", JObj [("mean", JFloat (S754_zero false))])].

(** {"psnr": {"psnr_avg": 45.12345}} *)
Definition doc_psnr : json :=
  JObj [("psnr", JObj [("psnr_avg", JFloat f_45_12345)])].

(** {"foo": {"bar": 1}} *)
Definition doc_foo : json :=
  JObj [("foo", JObj [("bar", JInt 1)])].

(** Stand-ins for the two library functions, used by the examples only:
    plain ASCII keys need no escape, and the examples dump no float. *)
Definition plain_encode (s : string) : string := dquote ++ s ++ dquote.
Definition plain_float_repr (f : spec_float) : string := format_float 1 f.

(* ================================================================= *)
(** ** Reading the result of a run *)

Definition world_of {W A} (r : W * list event * outcome A) : W := fst (fst r).
Definition log_of {W A} (r : W * list event * outcome A) : list event := snd (fst r).
Definition outcome_of {W A} (r : W * list event * outcome A) : outcome A := snd r.

(** The command line handed to the downloader. *)
Definition downloader_cmd (url output_path : string) : list string :=
  ["yt-dlp"; "-f"; "bestvideo[ext=mp4]+bestaudio[ext=m4a]/mp4";
   url; "-o"; output_path].

(** The lines the runner prints before it starts the engine. *)
Definition compare_prologue (reference_video distorted_video : string)
           (ms : list string) : list event :=
  [EPrint "Running comparison between:";
   EPrint ("Reference:  " ++ reference_video);
   EPrint ("Distorted:  " ++ distorted_video);
   EPrint ("Using metrics: " ++ join " " ms);
   ERun (engine_cmd reference_video distorted_video ms)].

(** ** A small world for the examples

    The world is the list of the files that exist.  The downloader
    creates its output file, the engine prints a fixed report, and the
    parser knows that report only; on an integer literal of more than
    4300 digits it raises [ValueError], as the interpreter's limit on
    integer string conversion makes [json.loads] do. *)
Fixpoint all_digits (s : string) : bool :=
  match s with
  | EmptyString => true
  | String c r =>
      (Nat.leb 48 (nat_of_ascii c) && Nat.leb (nat_of_ascii c) 57
       && all_digits r)%bool
  end.

(** The literal 11...1 with [n] digits. *)
Fixpoint ones (n : nat) : string :=
  match n with
  | O => EmptyString
  | S k => String "1" (ones k)
  end.

(** An engine that prints an integer literal of 4301 digits. *)
Definition demo_run_long_integer (cmd : list string) (w : list string)
  : list string * run_result :=
  (w, Completed (ones 4301) EmptyString).

Definition demo_run (cmd : list string) (w : list string)
  : list string * run_result :=
  match cmd with
  | prog :: rest =>
      if String.eqb prog "yt-dlp" then
        (List.last rest EmptyString :: w, Completed EmptyString EmptyString)
      else if String.eqb prog "ffmpeg-quality-metrics" then
        (w, Completed "<vmaf report>" EmptyString)
      else (w, RunRaised FileNotFoundError)
  | [] => (w, RunRaised FileNotFoundError)
  end.

(** A world without the downloader executable. *)
Definition demo_run_no_downloader (cmd : list string) (w : list string)
  : list string * run_result :=
  match cmd with
  | prog :: rest =>
      if String.eqb prog "ffmpeg-quality-metrics" then
        (w, Completed "<vmaf report>" EmptyString)
      else (w, RunRaised FileNotFoundError)
  | [] => (w, RunRaised FileNotFoundError)
  end.

Definition demo_exists (path : string) (w : list string) : bool :=
  existsb (String.eqb path) w.

Definition demo_tempdir (w : list string) : string := "/tmp".

Definition demo_join (dir name : string) : string := dir ++ "/" ++ name.

Definition demo_loads (s : string) : loads_result :=
  if String.eqb s "<vmaf report>" then Parsed doc_vmaf
  else if (all_digits s && Nat.ltb 4300 (String.length s))%bool
       then LoadsRaised ValueError
       else DecodeError.

Definition demo_error_str (cmd : list string) (code : Z) : string :=
  "Command returned non-zero exit status " ++ str_of_Z code ++ ".".

Definition demo_main (run : list string -> list string -> list string * run_result)
  : Args -> list string -> list string * list event * outcome unit :=
  main (list string) run demo_exists demo_tempdir demo_join demo_loads
       demo_error_str plain_float_repr plain_encode.

(** [--reference ref.mp4 --distorted dist.mp4] *)
Definition args_local : Args :=
  mkArgs (Some "ref.mp4") None "dist.mp4" None ["vmaf"].

(** [--youtube https://youtu.be/x --distorted dist.mp4] *)
Definition args_youtube : Args :=
  mkArgs None (Some "https://youtu.be/x") "dist.mp4" None ["vmaf"].

(** [--youtube '' --distorted dist.mp4] *)
Definition args_empty_url : Args :=
  mkArgs None (Some EmptyString) "dist.mp4" None ["vmaf"].

(* ================================================================= *)
(** ** Vocabulary of the further statements *)

(** The computation left through [sys.exit]. *)
Definition exits {A} (o : outcome A) : bool :=
  match o with Exit _ => true | _ => false end.

(** The computation returned a value. *)
Definition returns {A} (o : outcome A) : bool :=
  match o with Ret _ => true | _ => false end.

(** The position of a tier in the order Bad < Poor < Fair < Good < Excellent. *)
Definition tier_rank (t : string) : nat :=
  if String.eqb t "Bad" then 0
  else if String.eqb t "Poor" then 1
  else if String.eqb t "Fair" then 2
  else if String.eqb t "Good" then 3
  else 4.

(** The lines of the block the reporter prints for one item of the
    document. *)
Definition block_lines (float_repr : spec_float -> string)
           (encode_basestring_ascii : string -> string)
           (kv : string * json) : list string :=
  fst (display_metric float_repr encode_basestring_ascii (fst kv) (snd kv)).

Definition block_returns (float_repr : spec_float -> string)
           (encode_basestring_ascii : string -> string)
           (kv : string * json) : bool :=
  returns (snd (display_metric float_repr encode_basestring_ascii (fst kv) (snd kv))).

Definition is_object (j : json) : bool :=
  match j with JObj _ => true | _ => false end.

Definition is_print (e : event) : bool :=
  match e with EPrint _ => true | _ => false end.

(** The event that opens the report. *)
Definition is_banner (e : event) : bool :=
  match e with EPrint s => String.eqb s banner | _ => false end.

(** The lines the downloader prints before it starts the child, and the
    call itself. *)
Definition download_prologue (url out : string) : list event :=
  [EPrint ("Downloading YouTube video from: " ++ url);
   EPrint ("Saving to: " ++ out);
   ERun (downloader_cmd url out)].

(** A world without the metrics engine executable. *)
Definition demo_run_no_engine (cmd : list string) (w : list string)
  : list string * run_result :=
  match cmd with
  | prog :: rest =>
      if String.eqb prog "yt-dlp" then
        (List.last rest EmptyString :: w, Completed EmptyString EmptyString)
      else (w, RunRaised FileNotFoundError)
  | [] => (w, RunRaised FileNotFoundError)
  end.

(* ================================================================= *)
(** ** The per-frame value, read off the document *)




(** {"psnr": {"psnr_avg": null, "psnr_y": 40}} *)
Definition doc_psnr_null : json :=
  JObj [("psnr", JObj [("psnr_avg", JNull); ("psnr_y", JInt 40)])].

(** [N] is the integer nearest to [x], the even one on a tie. *)
Definition nearest_integer (x : Q) (N : Z) : Prop :=
  (Qabs (inject_Z N - x) < 1 # 2)%Q \/
  ((Qabs (inject_Z N - x) == 1 # 2)%Q /\ Z.even N = true).

(* ================================================================= *)
(** * Properties *)


(** ** Comparisons of finite numbers *)


Lemma Qltb_lt p q : Qltb p q = true <-> (p < q)%Q.
Proof.
  unfold Qltb. rewrite Qlt_alt.
  destruct (Qcompare p q); split; congruence.
Qed.

Lemma Qltb_ge p q : Qltb p q = false <-> (q <= p)%Q.
Proof.
  split; intro H.
  - apply Qnot_lt_le. intro L. apply Qltb_lt in L. congruence.
  - destruct (Qltb p q) eqn:E; [|reflexivity].
    apply Qltb_lt in E. exfalso. apply (Qlt_not_le _ _ E H).
Qed.

Lemma py_lt_finite a b p q :
  json_value a = Some (XFin p) -> json_value b = Some (XFin q) ->
  py_lt a b = Ret (Qltb p q).
Proof.
  intros Ha Hb. unfold py_lt. rewrite Ha, Hb. reflexivity.
Qed.


Lemma quality_tier_finite v q :
  json_value v = Some (XFin q) -> quality_tier v = Ret (tier_of q).
Proof.
  intro Hv. unfold quality_tier, tier_of.
  rewrite (py_lt_finite v (JInt 20) q 20 Hv eq_refl).
  rewrite (py_lt_finite v (JInt 40) q 40 Hv eq_refl).
  rewrite (py_lt_finite v (JInt 60) q 60 Hv eq_refl).
  rewrite (py_lt_finite v (JInt 80) q 80 Hv eq_refl).
  cbn [obind].
  destruct (Qltb q 20); [reflexivity|].
  destruct (Qltb q 40); [reflexivity|].
  destruct (Qltb q 60); [reflexivity|].
  destruct (Qltb q 80); reflexivity.
Qed.

Ltac tier_cases q :=
  unfold tier_of;
  destruct (Qltb q 20) eqn:?H20; [apply Qltb_lt in H20 | apply Qltb_ge in H20];
  (destruct (Qltb q 40) eqn:?H40; [apply Qltb_lt in H40 | apply Qltb_ge in H40]);
  (destruct (Qltb q 60) eqn:?H60; [apply Qltb_lt in H60 | apply Qltb_ge in H60]);
  (destruct (Qltb q 80) eqn:?H80; [apply Qltb_lt in H80 | apply Qltb_ge in H80]).

(** C1.  For a VMAF mean score [v] (a number whose value [q] lies in
    [0, 100]) the classification of lines 81-84 yields exactly one of the
    five tiers, with half-open bands: "Bad" iff 0 <= q < 20, "Poor" iff
    20 <= q < 40, "Fair" iff 40 <= q < 60, "Good" iff 60 <= q < 80 and
    "Excellent" iff 80 <= q <= 100; the boundaries 20, 40, 60 and 80 fall
    in the higher tier. *)
Theorem quality_tier_bands :
  forall (v : json) (q : Q),
    json_value v = Some (XFin q) ->
    (0 <= q <= 100)%Q ->
    (exists t, quality_tier v = Ret t /\
               In t ["Bad"; "Poor"; "Fair"; "Good"; "Excellent"]) /\
    (quality_tier v = Ret "Bad" <-> (0 <= q < 20)%Q) /\
    (quality_tier v = Ret "Poor" <-> (20 <= q < 40)%Q) /\
    (quality_tier v = Ret "Fair" <-> (40 <= q < 60)%Q) /\
    (quality_tier v = Ret "Good" <-> (60 <= q < 80)%Q) /\
    (quality_tier v = Ret "Excellent" <-> (80 <= q <= 100)%Q) /\
    quality_tier (JInt 20) = Ret "Poor" /\
    quality_tier (JInt 40) = Ret "Fair" /\
    quality_tier (JInt 60) = Ret "Good" /\
    quality_tier (JInt 80) = Ret "Excellent".
Proof.
  intros v q Hv [Hlo Hhi].
  rewrite (quality_tier_finite v q Hv).
  split.
  { eexists; split; [reflexivity|].
    unfold tier_of.
    destruct (Qltb q 20); [simpl; tauto|].
    destruct (Qltb q 40); [simpl; tauto|].
    destruct (Qltb q 60); [simpl; tauto|].
    destruct (Qltb q 80); simpl; tauto. }
  repeat match goal with |- _ /\ _ => split end; try reflexivity;
    (split;
     [ intro H; revert H; tier_cases q; intro H;
       first [discriminate H | split; lra]
     | intros [H1 H2]; tier_cases q; first [reflexivity | lra] ]).
Qed.

Lemma quality_tier_bands_witness :
  quality_tier (JFloat f_92_5) = Ret "Excellent".
Proof.
  destruct (quality_tier_bands (JFloat f_92_5) (mag_Q 6509108836433920 (-46)) eq_refl)
    as (_ & _ & _ & _ & _ & H & _).
  - split; unfold Qle; simpl; lia.
  - apply H. split; unfold Qle; simpl; lia.
Defined.

(** Outside the range of VMAF scores the chain of comparisons still
    answers: everything below 20 is "Bad", everything from 80 upwards is
    "Excellent", and so is a NaN, for which every comparison is false. *)
Lemma quality_tier_outside_range :
  quality_tier (JInt (-1)) = Ret "Bad" /\
  quality_tier (JInt 101) = Ret "Excellent" /\
  quality_tier (JFloat S754_nan) = Ret "Excellent".
Proof. repeat split. Qed.

(** ** The reporter *)





Lemma pbind_print {B} (s : string) (k : unit -> Pr B) :
  pbind (print s) k = (s :: fst (k tt), snd (k tt)).
Proof. unfold pbind, print. destruct (k tt); reflexivity. Qed.

Lemma pbind_lift_ret {A B} (a : A) (k : A -> Pr B) :
  pbind (lift (Ret a)) k = k a.
Proof. unfold pbind, lift. destruct (k a); reflexivity. Qed.

Lemma pbind_lift_exit {A B} (code : Z) (k : A -> Pr B) :
  pbind (lift (Exit code)) k = ([], Exit code).
Proof. reflexivity. Qed.

Lemma pbind_lift_raise {A B} (e : exn) (k : A -> Pr B) :
  pbind (lift (Raise e)) k = ([], Raise e).
Proof. reflexivity. Qed.

(** A lifted computation that does not return prints nothing more. *)
Ltac stops :=
  first [rewrite pbind_lift_exit | rewrite pbind_lift_raise]; cbn [fst In]; intros [].

Lemma pbind_pret {A B} (a : A) (k : A -> Pr B) :
  pbind (pret a) k = k a.
Proof. unfold pbind, pret. destruct (k a); reflexivity. Qed.

Lemma pbind_fst_ret {A B} (c : Pr A) (k : A -> Pr B) (a : A) :
  snd c = Ret a -> pbind c k = ((fst c ++ fst (k a))%list, snd (k a)).
Proof.
  destruct c as [out r]; simpl; intros ->. unfold pbind.
  destruct (k a); reflexivity.
Qed.

(** A truth test fails on the three zeros. *)
Lemma truthy_zero :
  truthy (JInt 0) = false /\
  truthy (JFloat (S754_zero false)) = false /\
  truthy (JFloat (S754_zero true)) = false.
Proof. repeat split. Qed.

(** Whatever the frame part prints, each of its lines is one of the four
    frame-details lines. *)
Lemma display_vmaf_frames_lines d line :
  In line (fst (display_vmaf_frames d)) ->
  exists s, line = nl ++ "=== Frame-by-Frame Details ===" \/
            line = "Analyzed " ++ s \/
            line = "Min VMAF: " ++ s \/
            line = "Max VMAF: " ++ s.
Proof.
  unfold display_vmaf_frames.
  destruct (dict_mem "frames" d && truthy (dict_get d "frames" JNull))%bool;
    [|intros []].
  set (frames := dict_get d "frames" JNull).
  rewrite pbind_print. cbn [fst In].
  intros [<-|H]; [exists EmptyString; auto|]. revert H.
  destruct (py_len frames) as [n| |]; [| stops | stops].
  rewrite pbind_lift_ret, pbind_print. cbn [fst In].
  intros [<-|H]; [eexists; right; left; reflexivity|]. revert H.
  destruct (py_iter frames) as [items| |]; [| stops | stops].
  rewrite pbind_lift_ret.
  destruct (py_min items) as [lo| |]; [| stops | stops].
  rewrite pbind_lift_ret.
  destruct (format_f 2 lo) as [slo| |]; [| stops | stops].
  rewrite pbind_lift_ret, pbind_print. cbn [fst In].
  intros [<-|H]; [eexists; right; right; left; reflexivity|]. revert H.
  rewrite pbind_lift_ret.
  destruct (py_max items) as [hi| |]; [| stops | stops].
  rewrite pbind_lift_ret.
  destruct (format_f 2 hi) as [shi| |]; [| stops | stops].
  rewrite pbind_lift_ret. unfold print. cbn [fst In].
  intros [<-|[]]. eexists; right; right; right; reflexivity.
Qed.

(** The reporter monad is a monad. *)
Lemma pbind_assoc {A B C} (c : Pr A) (f : A -> Pr B) (g : B -> Pr C) :
  pbind (pbind c f) g = pbind c (fun a => pbind (f a) g).
Proof.
  destruct c as [o [a| |]]; try reflexivity.
  unfold pbind at 2 3. destruct (f a) as [o1 [b| |]]; try reflexivity.
  unfold pbind. destruct (g b) as [o2 r]. now rewrite app_assoc.
Qed.

Lemma pbind_pret_r (c : Pr unit) : pbind c (fun _ => pret tt) = c.
Proof.
  destruct c as [o [[]| |]]; try reflexivity.
  unfold pbind, pret. now rewrite app_nil_r.
Qed.

Section ReporterFacts.

Variable float_repr : spec_float -> string.
Variable encode_basestring_ascii : string -> string.

(** A document with a single metric. *)
Lemma display_results_single metric data :
  display_results float_repr encode_basestring_ascii (JObj [(metric, data)]) =
  pbind (print banner)
    (fun _ => display_metric float_repr encode_basestring_ascii metric data).
Proof.
  unfold display_results, display_items. fold banner.
  now rewrite pbind_pret_r.
Qed.

Lemma display_metric_vmaf d :
  display_metric float_repr encode_basestring_ascii "vmaf" (JObj d) =
  pbind (print "=== VMAF Results ===")
    (fun _ => pbind (display_vmaf_score d)
    (fun _ => pbind (display_vmaf_frames d)
    (fun _ => print EmptyString))).
Proof.
  unfold display_metric.
  change (String.eqb "vmaf" "vmaf") with true.
  change (upper "vmaf") with "VMAF". cbv iota.
  now rewrite pbind_assoc.
Qed.

(** C3.  When the "vmaf" object carries a 'mean' that is exactly 0
    (the int 0, or the float 0.0 of either sign), the truth test of
    line 70 fails: the score part prints nothing, and no line of the
    whole report is a score line, a legend line or a tier line. *)
Theorem zero_mean_prints_no_score :
  forall (d : list (string * json)) (v : json),
    dict_find "mean" d = Some v ->
    (v = JInt 0 \/ exists s, v = JFloat (S754_zero s)) ->
    display_vmaf_score d = ([], Ret tt) /\
    forall line,
      In line (fst (display_results float_repr encode_basestring_ascii
                      (JObj [("vmaf", JObj d)]))) ->
      is_score_line line = false /\ ~ In line legend /\ is_tier_line line = false.
Proof.
  intros d v Hfind Hzero.
  assert (Hscore : display_vmaf_score d = ([], Ret tt)).
  { unfold display_vmaf_score, dict_get. rewrite Hfind.
    destruct Hzero as [->|[s ->]]; reflexivity. }
  split; [exact Hscore|].
  intro line. rewrite display_results_single, display_metric_vmaf, Hscore.
  rewrite !pbind_print. change ([], Ret tt) with (@pret unit tt).
  rewrite pbind_pret. cbn [fst snd In].
  intros [<-|[<-|H]].
  - repeat split; try reflexivity.
    unfold legend; simpl; intuition discriminate.
  - repeat split; try reflexivity.
    unfold legend; simpl; intuition discriminate.
  - assert (Hl : In line (fst (display_vmaf_frames d)) \/ line = EmptyString).
    { revert H. destruct (display_vmaf_frames d) as [o2 [[]| |]];
        unfold pbind, print; cbn [fst].
      - rewrite in_app_iff. simpl. intuition.
      - auto.
      - auto. }
    destruct Hl as [Hl| ->].
    + apply display_vmaf_frames_lines in Hl.
      destruct Hl as [s [-> | [-> | [-> | ->]]]];
        (repeat split; try reflexivity;
         unfold legend; simpl; intuition discriminate).
    + repeat split; try reflexivity.
      unfold legend; simpl; intuition discriminate.
Qed.

(** C2.  The report for {"vmaf": {"mean": 0.0}}: the object contains a
    mean score, yet neither the score line, nor the legend, nor a tier is
    printed; the report consists of the banner, the metric header and the
    closing blank line. *)
Theorem zero_mean_report :
  display_results float_repr encode_basestring_ascii doc_vmaf_zero =
  ([banner; "=== VMAF Results ==="; EmptyString], Ret tt).
Proof. reflexivity. Qed.

Lemma truthy_nonzero v q :
  json_value v = Some (XFin q) -> ~ (q == 0)%Q -> truthy v = true.
Proof.
  destruct v as [ |b|z|f|s|l|d]; simpl; try discriminate.
  - destruct b; [reflexivity|]. intros [= <-] H. now destruct H.
  - intros [= <-] H. destruct (z =? 0) eqn:E; [|reflexivity].
    apply Z.eqb_eq in E. subst z. now destruct H.
  - destruct f as [s|s| |s m e]; simpl; try discriminate; try reflexivity.
    intros [= <-] H. now destruct H.
Qed.

(** The score part for a mean that is a non-zero finite number: the
    score to two decimals, the legend, and the tier of the score. *)
Lemma display_vmaf_score_nonzero d v q :
  dict_find "mean" d = Some v ->
  json_value v = Some (XFin q) -> ~ (q == 0)%Q ->
  accepts_f 2 v = true ->
  display_vmaf_score d =
  (("VMAF Score: " ++ fmt 2 v ++ " / 100.0")
     :: app legend [nl ++ "This video's quality is rated as: " ++ tier_of q],
   Ret tt).
Proof.
  intros Hfind Hv Hq Hacc.
  unfold display_vmaf_score, dict_get. rewrite Hfind.
  rewrite (truthy_nonzero v q Hv Hq).
  rewrite (quality_tier_finite v q Hv).
  unfold accepts_f in Hacc. unfold fmt.
  destruct (format_f 2 v) as [s| |]; try discriminate.
  reflexivity.
Qed.

(** The report for the sample VMAF document. *)
Lemma doc_vmaf_report :
  display_results float_repr encode_basestring_ascii doc_vmaf =
  ([banner; "=== VMAF Results ===";
    "VMAF Score: 92.50 / 100.0";
    nl ++ "=== VMAF SCORE INTERPRETATION ===";
    "0-20:   Bad quality";
    "20-40:  Poor quality";
    "40-60:  Fair quality";
    "60-80:  Good quality";
    "80-100: Excellent quality";
    nl ++ "This video's quality is rated as: Excellent";
    nl ++ "=== Frame-by-Frame Details ===";
    "Analyzed 2 frames";
    "Min VMAF: 90.00";
    "Max VMAF: 95.00";
    EmptyString], Ret tt).
Proof. vm_compute. reflexivity. Qed.

End ReporterFacts.

Lemma zero_mean_prints_no_score_witness :
  display_vmaf_score [("mean", JInt 0)] = ([], Ret tt) /\
  forall line,
    In line (fst (display_results plain_float_repr plain_encode
                    (JObj [("vmaf", JObj [("mean", JInt 0)])]))) ->
    is_score_line line = false /\ ~ In line legend /\ is_tier_line line = false.
Proof.
  exact (zero_mean_prints_no_score plain_float_repr plain_encode
           [("mean", JInt 0)] (JInt 0) eq_refl (or_introl eq_refl)).
Defined.

(** The sample floats are the binary64 values of their decimal literals. *)
Lemma sample_floats_nearest :
  nearest_binary64 (925 # 10) 6509108836433920 (-46) /\
  nearest_binary64 (4512345 # 100000) 6350561018927225 (-47) /\
  nearest_binary64 90 6333186975989760 (-46) /\
  nearest_binary64 95 6685030696878080 (-46).
Proof.
  repeat split; try (vm_compute; congruence).
Qed.

(** ** Frame-by-frame details *)

Lemma frame_ok_score fr :
  frame_ok fr = true -> exists v q, frame_vmaf fr = Ret v /\ score v q.
Proof.
  unfold frame_ok, score.
  destruct (frame_vmaf fr) as [v| |]; try discriminate.
  destruct (json_value v) as [[ | |q| ]|] eqn:Hv; try discriminate.
  intro H. exists v, q. repeat split; auto.
Qed.

(** [min] keeps a well-formed value that is below the first candidate and
    below every value drawn from the frames. *)
Lemma min_loop_spec frames :
  forall best qb,
    score best qb -> forallb frame_ok frames = true ->
    exists lo qlo,
      min_loop best frames = Ret lo /\ score lo qlo /\
      (lo = best \/ In (Ret lo) (map frame_vmaf frames)) /\
      (qlo <= qb)%Q /\
      forall fr v q, In fr frames -> frame_vmaf fr = Ret v ->
                     json_value v = Some (XFin q) -> (qlo <= q)%Q.
Proof.
  induction frames as [|fr rest IH]; intros best qb Hb Hok.
  - exists best, qb. repeat split; try apply Hb; auto using Qle_refl.
    intros fr v q [].
  - simpl in Hok. apply andb_prop in Hok as [Hfr Hrest].
    destruct (frame_ok_score fr Hfr) as (v & q & Hv & Hs).
    cbn [min_loop]. rewrite Hv. cbn [obind].
    rewrite (py_lt_finite v best q qb (proj1 Hs) (proj1 Hb)). cbn [obind].
    destruct (Qltb q qb) eqn:E.
    + apply Qltb_lt in E.
      destruct (IH v q Hs Hrest) as (lo & qlo & Hmin & Hlo & Hin & Hle & Hall).
      exists lo, qlo. repeat split; try apply Hlo; auto.
      * right. destruct Hin as [->|Hin]; [left; auto | right; exact Hin].
      * lra.
      * intros fr' v' q' [<-|Hin'] Hv' Hq'.
        -- rewrite Hv in Hv'. injection Hv' as <-.
           rewrite (proj1 Hs) in Hq'. injection Hq' as <-. exact Hle.
        -- eapply Hall; eauto.
    + apply Qltb_ge in E.
      destruct (IH best qb Hb Hrest) as (lo & qlo & Hmin & Hlo & Hin & Hle & Hall).
      exists lo, qlo. repeat split; try apply Hlo; auto.
      * destruct Hin as [->|Hin]; [left; auto | right; right; exact Hin].
      * intros fr' v' q' [<-|Hin'] Hv' Hq'.
        -- rewrite Hv in Hv'. injection Hv' as <-.
           rewrite (proj1 Hs) in Hq'. injection Hq' as <-. lra.
        -- eapply Hall; eauto.
Qed.




Lemma accepts_fmt n v : accepts_f n v = true -> format_f n v = Ret (fmt n v).
Proof.
  unfold accepts_f, fmt. destruct (format_f n v); congruence.
Qed.








(** A frame without a value pulls the minimum down to 0. *)
Lemma missing_frame_value_report :
  display_vmaf_frames [("frames", JArr [frame_of f_90; JObj []; frame_of f_95])] =
  ([nl ++ "=== Frame-by-Frame Details ===";
    "Analyzed 3 frames"; "Min VMAF: 0.00"; "Max VMAF: 95.00"], Ret tt).
Proof. vm_compute. reflexivity. Qed.

(** ** The other metrics *)

Lemma display_components_ok metric d :
  forallb component_ok d = true ->
  display_components metric d = (component_lines metric d, Ret tt).
Proof.
  induction d as [|[component value] rest IH]; intro Hok.
  - reflexivity.
  - simpl in Hok. apply andb_prop in Hok as [Hkv Hrest].
    cbn [display_components]. rewrite (IH Hrest).
    unfold component_lines, component_ok in *. cbn [filter fst snd] in *.
    destruct (String.eqb component "frames"); cbn [negb orb] in *.
    + rewrite pbind_pret. reflexivity.
    + rewrite (accepts_fmt 4 value Hkv), pbind_lift_ret.
      rewrite (pbind_fst_ret (print _) _ tt eq_refl). reflexivity.
Qed.

Lemma component_line_not_tier metric d line :
  metric = "psnr" \/ metric = "ssim" ->
  In line (component_lines metric d) -> is_tier_line line = false.
Proof.
  intros Hm Hin. unfold component_lines in Hin.
  apply in_map_iff in Hin as (kv & <- & _).
  destruct Hm as [-> | ->]; reflexivity.
Qed.

Section OtherMetrics.

Variable float_repr : spec_float -> string.
Variable encode_basestring_ascii : string -> string.

(** C5 (amended).  For a "psnr" or "ssim" object whose values are
    numbers, the reporter prints one line per key other than 'frames',
    the value to four decimals, and no tier line; the binary64 value is
    what gets rounded, so {"psnr": {"psnr_avg": 45.12345}} prints
    "PSNR psnr_avg: 45.1234". *)
Theorem components_report :
  forall (metric : string) (d : list (string * json)),
    metric = "psnr" \/ metric = "ssim" ->
    forallb component_ok d = true ->
    display_metric float_repr encode_basestring_ascii metric (JObj d) =
    (("=== " ++ upper metric ++ " Results ===")
       :: app (component_lines metric d) [EmptyString], Ret tt) /\
    (forall line,
        In line (fst (display_metric float_repr encode_basestring_ascii
                        metric (JObj d))) ->
        is_tier_line line = false) /\
    display_results float_repr encode_basestring_ascii doc_psnr =
    ([banner; "=== PSNR Results ==="; "PSNR psnr_avg: 45.1234"; EmptyString],
     Ret tt).
Proof.
  intros metric d Hm Hok.
  assert (Heq : display_metric float_repr encode_basestring_ascii metric (JObj d) =
                (("=== " ++ upper metric ++ " Results ===")
                   :: app (component_lines metric d) [EmptyString], Ret tt)).
  { unfold display_metric.
    assert (Hb : String.eqb metric "vmaf" = false /\
                 (String.eqb metric "psnr" || String.eqb metric "ssim")%bool = true)
      by (destruct Hm as [-> | ->]; split; reflexivity).
    destruct Hb as [-> ->].
    rewrite (display_components_ok metric d Hok).
    rewrite pbind_print. unfold pbind, print. reflexivity. }
  repeat match goal with |- _ /\ _ => split end.
  - exact Heq.
  - intro line. rewrite Heq. cbn [fst In]. rewrite in_app_iff.
    intros [<- | [Hin | [<- | []]]].
    + destruct Hm as [-> | ->]; reflexivity.
    + eapply component_line_not_tier; eauto.
    + reflexivity.
  - vm_compute. reflexivity.
Qed.

(** C6.  For a metric name other than "vmaf", "psnr" and "ssim", and any
    value attached to it, the reporter returns normally after printing
    the metric header, the value pretty-printed by [json.dumps] with a
    2-space indent, and a blank line. *)
Theorem unknown_metric_report :
  forall (metric : string) (data : json),
    metric <> "vmaf" -> metric <> "psnr" -> metric <> "ssim" ->
    display_metric float_repr encode_basestring_ascii metric data =
    (["=== " ++ upper metric ++ " Results ===";
      json_dumps float_repr encode_basestring_ascii data;
      EmptyString], Ret tt) /\
    display_results float_repr encode_basestring_ascii (JObj [(metric, data)]) =
    ([banner;
      "=== " ++ upper metric ++ " Results ===";
      json_dumps float_repr encode_basestring_ascii data;
      EmptyString], Ret tt).
Proof.
  intros metric data Hv Hp Hs.
  assert (Heq : display_metric float_repr encode_basestring_ascii metric data =
                (["=== " ++ upper metric ++ " Results ===";
                  json_dumps float_repr encode_basestring_ascii data;
                  EmptyString], Ret tt)).
  { unfold display_metric.
    apply String.eqb_neq in Hv, Hp, Hs. rewrite Hv, Hp, Hs. reflexivity. }
  split; [exact Heq|].
  rewrite display_results_single, Heq. reflexivity.
Qed.

End OtherMetrics.

Lemma components_report_witness :
  display_metric plain_float_repr plain_encode "ssim"
    (JObj [("ssim_avg", JFloat f_92_5); ("frames", JArr []); ("ssim_y", JInt 1)]) =
  (["=== SSIM Results ==="; "SSIM ssim_avg: 92.5000"; "SSIM ssim_y: 1.0000";
    EmptyString], Ret tt).
Proof.
  exact (proj1 (components_report plain_float_repr plain_encode "ssim"
           [("ssim_avg", JFloat f_92_5); ("frames", JArr []); ("ssim_y", JInt 1)]
           (or_intror eq_refl) eq_refl)).
Defined.

(** The sample report of an unknown metric, with plain ASCII keys. *)
Lemma unknown_metric_report_witness :
  display_results plain_float_repr plain_encode doc_foo =
  ([banner; "=== FOO Results ===";
    "{" ++ nl ++ "  " ++ dquote ++ "bar" ++ dquote ++ ": 1" ++ nl ++ "}";
    EmptyString], Ret tt).
Proof.
  refine (proj2 (unknown_metric_report plain_float_repr plain_encode
                   "foo" (JObj [("bar", JInt 1)]) _ _ _)); discriminate.
Defined.

(** {"psnr": {"psnr_avg": 45.12345}} does not print 45.1235: the double
    nearest to 45.12345 lies below it and rounds down.  And
    {"psnr": {"psnr_avg": null, "psnr_y": 40}} prints no component at
    all: [.4f] rejects the null and [TypeError] escapes. *)
Lemma doc_psnr_not_rounded_up :
  fst (display_results plain_float_repr plain_encode doc_psnr) =
  [banner; "=== PSNR Results ==="; "PSNR psnr_avg: 45.1234"; EmptyString] /\
  ~ In "PSNR psnr_avg: 45.1235"
       (fst (display_results plain_float_repr plain_encode doc_psnr)) /\
  display_results plain_float_repr plain_encode doc_psnr_null =
  ([banner; "=== PSNR Results ==="], Raise TypeError).
Proof.
  split; [vm_compute; reflexivity|]. split.
  - vm_compute. intuition discriminate.
  - vm_compute. reflexivity.
Qed.

(** ** The process: resolver, validation, runner *)

Section OrchestrationFacts.

Variable World : Type.
Variable subprocess_run : list string -> World -> World * run_result.
Variable os_path_exists : string -> World -> bool.
Variable gettempdir : World -> string.
Variable os_path_join : string -> string -> string.
Variable json_loads : string -> loads_result.
Variable str_CalledProcessError : list string -> Z -> string.
Variable float_repr : spec_float -> string.
Variable encode_basestring_ascii : string -> string.

Local Abbreviation download :=
  (download_youtube_video World subprocess_run gettempdir os_path_join
     str_CalledProcessError).
Local Abbreviation compare :=
  (run_video_comparison World subprocess_run json_loads str_CalledProcessError).
Local Abbreviation resolve :=
  (resolve_reference World subprocess_run gettempdir os_path_join
     str_CalledProcessError).
Local Abbreviation check := (check_files World os_path_exists).
Local Abbreviation main_ :=
  (main World subprocess_run os_path_exists gettempdir os_path_join json_loads
     str_CalledProcessError float_repr encode_basestring_ascii).

(** The runner, case by case on what the engine does. *)
Lemma run_video_comparison_cases reference_video distorted_video metrics w :
  let ms := match metrics with None => ["vmaf"] | Some m => m end in
  let cmd := engine_cmd reference_video distorted_video ms in
  let pre := compare_prologue reference_video distorted_video ms in
  compare reference_video distorted_video metrics w =
  match subprocess_run cmd w with
  | (w', Completed stdout _) =>
      match json_loads stdout with
      | Parsed j => (w', pre, Ret j)
      | DecodeError =>
          (w', app pre [EPrint ("Error parsing output. Raw output: " ++ stdout)],
           Exit 1)
      | LoadsRaised e => (w', pre, Raise e)
      end
  | (w', CalledProcessError code _ stderr) =>
      (w', app pre [EPrint ("Error running ffmpeg-quality-metrics: "
                              ++ str_CalledProcessError cmd code);
                    EPrint ("Command output: " ++ stderr)], Exit 1)
  | (w', RunRaised e) => (w', pre, Raise e)
  end.
Proof.
  intros ms cmd pre. unfold run_video_comparison, bind, io_print, run.
  fold ms. fold cmd.
  destruct (subprocess_run cmd w) as [w' [so se|code so se|e]].
  - destruct (json_loads so); reflexivity.
  - reflexivity.
  - reflexivity.
Qed.

(** C7 (amended).  The runner starts the engine exactly once.  It
    returns a document exactly when the engine exits zero and
    [json.loads] returns one for its standard output, and the document is
    that one; when the engine exits non-zero it prints the error and the
    captured standard error and exits with code 1; when [json.loads]
    rejects the output with [JSONDecodeError] it prints the raw output
    and exits with code 1; any other exception of [json.loads] escapes,
    with no diagnostic. *)
Theorem run_video_comparison_outcomes :
  forall (reference_video distorted_video : string)
         (metrics : option (list string)) (w : World),
    let ms := match metrics with None => ["vmaf"] | Some m => m end in
    let cmd := engine_cmd reference_video distorted_video ms in
    let r := compare reference_video distorted_video metrics w in
    filter is_run (log_of r) = [ERun cmd] /\
    world_of r = fst (subprocess_run cmd w) /\
    (forall j,
        outcome_of r = Ret j <->
        exists stdout stderr,
          snd (subprocess_run cmd w) = Completed stdout stderr /\
          json_loads stdout = Parsed j) /\
    (forall code stdout stderr,
        snd (subprocess_run cmd w) = CalledProcessError code stdout stderr ->
        outcome_of r = Exit 1 /\
        In (EPrint ("Error running ffmpeg-quality-metrics: "
                      ++ str_CalledProcessError cmd code)) (log_of r) /\
        In (EPrint ("Command output: " ++ stderr)) (log_of r)) /\
    (forall stdout stderr,
        snd (subprocess_run cmd w) = Completed stdout stderr ->
        json_loads stdout = DecodeError ->
        outcome_of r = Exit 1 /\
        In (EPrint ("Error parsing output. Raw output: " ++ stdout)) (log_of r)) /\
    (forall stdout stderr e,
        snd (subprocess_run cmd w) = Completed stdout stderr ->
        json_loads stdout = LoadsRaised e ->
        outcome_of r = Raise e /\
        log_of r = compare_prologue reference_video distorted_video ms).
Proof.
  intros reference_video distorted_video metrics w ms cmd r.
  subst r. rewrite run_video_comparison_cases. fold ms. fold cmd.
  destruct (subprocess_run cmd w) as [w' [so se|code so se|e]]; cbn [fst snd].
  - destruct (json_loads so) as [j| |e] eqn:Hj;
      unfold log_of, world_of, outcome_of; cbn [fst snd].
    + repeat match goal with |- _ /\ _ => split end; try reflexivity.
      * intro j'. split.
        -- intros [= <-]. exists so, se. auto.
        -- intros (so' & se' & [= <- <-] & Hj'). congruence.
      * discriminate.
      * intros so' se' [= <- <-]. congruence.
      * intros so' se' e' [= <- <-]. congruence.
    + repeat match goal with |- _ /\ _ => split end; try reflexivity.
      * intro j'. split; [discriminate|].
        intros (so' & se' & [= <- <-] & Hj'). congruence.
      * discriminate.
      * intros so' se' [= <- <-] _. split; [reflexivity|].
        apply in_or_app. right. left. reflexivity.
      * intros so' se' e' [= <- <-]. congruence.
    + repeat match goal with |- _ /\ _ => split end; try reflexivity.
      * intro j'. split; [discriminate|].
        intros (so' & se' & [= <- <-] & Hj'). congruence.
      * discriminate.
      * intros so' se' [= <- <-]. congruence.
      * intros so' se' e' [= <- <-] He. split; [congruence | reflexivity].
  - unfold log_of, world_of, outcome_of; cbn [fst snd].
    repeat match goal with |- _ /\ _ => split end; try reflexivity.
    + intro j'. split; [discriminate|].
      intros (so' & se' & [=] & _).
    + intros code' so' se' [= <- <- <-].
      repeat split; apply in_or_app; right; simpl; auto.
    + discriminate.
    + discriminate.
  - unfold log_of, world_of, outcome_of; cbn [fst snd].
    repeat match goal with |- _ /\ _ => split end; try reflexivity.
    + intro j'. split; [discriminate|].
      intros (so' & se' & [=] & _).
    + discriminate.
    + discriminate.
    + discriminate.
Qed.


(** Binding after a computation whose result is known. *)
Lemma bind_ret {A B} (c : IO World A) (k : A -> IO World B) w w1 l1 a :
  c w = (w1, l1, Ret a) ->
  bind World c k w =
  (world_of (k a w1), app l1 (log_of (k a w1)), outcome_of (k a w1)).
Proof.
  intro H. unfold bind. rewrite H.
  destruct (k a w1) as [[w2 l2] r]. reflexivity.
Qed.

Lemma bind_exit {A B} (c : IO World A) (k : A -> IO World B) w w1 l1 code :
  c w = (w1, l1, Exit code) -> bind World c k w = (w1, l1, Exit code).
Proof. intro H. unfold bind. now rewrite H. Qed.

Lemma bind_raise {A B} (c : IO World A) (k : A -> IO World B) w w1 l1 e :
  c w = (w1, l1, Raise e) -> bind World c k w = (w1, l1, Raise e).
Proof. intro H. unfold bind. now rewrite H. Qed.

Lemma existsb_prints (p : event -> bool) (lines : list string) :
  (forall s, p (EPrint s) = false) -> existsb p (map EPrint lines) = false.
Proof.
  intro H. induction lines as [|l r IH]; [reflexivity|].
  simpl. now rewrite H, IH.
Qed.

(** The downloader, case by case on what the child process does. *)
Lemma download_youtube_video_cases url output_path w :
  let out := match output_path with
             | None => os_path_join (gettempdir w) "youtube_download.mp4"
             | Some p => p
             end in
  let cmd := downloader_cmd url out in
  let pre := [EPrint ("Downloading YouTube video from: " ++ url);
              EPrint ("Saving to: " ++ out); ERun cmd] in
  download url output_path w =
  match subprocess_run cmd w with
  | (w', Completed _ _) => (w', pre, Ret out)
  | (w', CalledProcessError code _ _) =>
      (w', app pre [EPrint ("Error downloading YouTube video: "
                              ++ str_CalledProcessError cmd code)], Exit 1)
  | (w', RunRaised FileNotFoundError) =>
      (w', app pre [EPrint "Error: yt-dlp not found. Install it with: pip install yt-dlp"],
       Exit 1)
  | (w', RunRaised e) => (w', pre, Raise e)
  end.
Proof.
  intros out cmd pre.
  unfold download_youtube_video, bind, io_print, run, tempdir, ret.
  destruct output_path as [p|]; cbn [fst snd app]; fold out; fold cmd;
    unfold downloader_cmd in cmd; fold cmd;
    (destruct (subprocess_run cmd w) as [w' [so se|code so se|e]];
     [reflexivity | reflexivity | destruct e; reflexivity]).
Qed.

(** The existence checks on a resolved reference and the distorted file. *)
Lemma check_files_cases r d w :
  check [Some r; Some d] w =
  if os_path_exists r w then
    if os_path_exists d w then (w, [EExists r; EExists d], Ret tt)
    else (w, [EExists r; EExists d;
              EPrint ("Error: Video file not found: " ++ d)], Exit 1)
  else (w, [EExists r; EPrint ("Error: Video file not found: " ++ r)], Exit 1).
Proof.
  unfold check_files, bind, path_exists, io_print, sys_exit, ret.
  destruct (os_path_exists r w); cbn [negb app];
    [destruct (os_path_exists d w); reflexivity | reflexivity].
Qed.

(** The resolver never starts the metrics engine. *)
Lemma resolve_no_engine args w :
  existsb is_engine_call (log_of (resolve args w)) = false.
Proof.
  unfold resolve_reference.
  destruct (youtube args) as [url|]; [|reflexivity].
  destruct (negb (String.eqb url EmptyString)); [|reflexivity].
  unfold bind. rewrite download_youtube_video_cases.
  destruct (subprocess_run _ w) as [w' [so se|code so se|e]];
    [reflexivity | reflexivity | destruct e; reflexivity].
Qed.

(** The runner never starts the downloader and makes no existence check. *)
Lemma compare_log reference_video distorted_video ms w :
  existsb is_downloader_call
    (log_of (compare reference_video distorted_video ms w)) = false /\
  forall cmd,
    In (ERun cmd) (log_of (compare reference_video distorted_video ms w)) ->
    cmd = engine_cmd reference_video distorted_video
            (match ms with None => ["vmaf"] | Some m => m end).
Proof.
  rewrite run_video_comparison_cases.
  destruct (subprocess_run _ w) as [w' [so se|code so se|e]];
    [destruct (json_loads so) as [j| |e']| | ]; unfold log_of; cbn [fst snd];
    (split; [reflexivity|]); intro cmd; simpl;
    intuition congruence.
Qed.

(** C8.  Once the reference is resolved to a path, if that path or the
    distorted path does not exist the program prints which file was not
    found and exits with code 1, and the metrics engine is never
    started. *)
Theorem missing_file_exits :
  forall (args : Args) (w w1 : World) (log1 : list event) (r : string),
    resolve args w = (w1, log1, Ret (Some r)) ->
    os_path_exists r w1 = false \/ os_path_exists (distorted args) w1 = false ->
    main_ args w =
    (w1,
     app log1
       (if os_path_exists r w1 then
          [EExists r; EExists (distorted args);
           EPrint ("Error: Video file not found: " ++ distorted args)]
        else [EExists r; EPrint ("Error: Video file not found: " ++ r)]),
     Exit 1) /\
    existsb is_engine_call (log_of (main_ args w)) = false.
Proof.
  intros args w w1 log1 r Hres Hmiss.
  assert (Hmain :
    main_ args w =
    (w1,
     app log1
       (if os_path_exists r w1 then
          [EExists r; EExists (distorted args);
           EPrint ("Error: Video file not found: " ++ distorted args)]
        else [EExists r; EPrint ("Error: Video file not found: " ++ r)]),
     Exit 1)).
  { unfold main. rewrite (bind_ret _ _ w w1 log1 (Some r) Hres).
    assert (Hc : check [Some r; Some (distorted args)] w1 =
                 (w1,
                  if os_path_exists r w1 then
                    [EExists r; EExists (distorted args);
                     EPrint ("Error: Video file not found: " ++ distorted args)]
                  else [EExists r; EPrint ("Error: Video file not found: " ++ r)],
                  Exit 1)).
    { rewrite check_files_cases.
      destruct (os_path_exists r w1) eqn:Er; [|reflexivity].
      destruct Hmiss as [Hr|Hd]; [discriminate|]. now rewrite Hd. }
    rewrite (bind_exit _ _ w1 _ _ 1 Hc). reflexivity. }
  split; [exact Hmain|].
  rewrite Hmain. unfold log_of; cbn [fst snd].
  rewrite existsb_app.
  pose proof (resolve_no_engine args w) as Hne. rewrite Hres in Hne.
  unfold log_of in Hne; cbn [fst snd] in Hne. rewrite Hne.
  destruct (os_path_exists r w1); reflexivity.
Qed.

(** C9.  With an empty URL after [--youtube] the truth test of line 127
    fails: no downloader is started, the reference stays [None], and the
    first existence check raises [TypeError]. *)
Theorem empty_url_skips_download :
  forall w : World, main_ args_empty_url w = (w, [], Raise TypeError).
Proof. reflexivity. Qed.

(** What [main] does once the reference is resolved to a path. *)
#[warnings="-inconsistent-scopes"]
Local Abbreviation validated_run r args :=
  (bind World (check [Some r; Some (distorted args)])
     (fun _ : unit =>
        bind World (compare r (distorted args) (Some (metrics args)))
          (fun results : json =>
             report World
               (display_results float_repr encode_basestring_ascii results)))).

Lemma main_resolved args w w1 l1 r :
  resolve args w = (w1, l1, Ret (Some r)) ->
  main_ args w =
  (world_of (validated_run r args w1),
   app l1 (log_of (validated_run r args w1)),
   outcome_of (validated_run r args w1)).
Proof.
  intro H. unfold main. now rewrite (bind_ret _ _ w w1 l1 (Some r) H).
Qed.

(** After resolution no downloader is started, and the only command
    that may be started is the engine on the resolved paths. *)
Lemma validated_run_log r args w1 :
  existsb is_downloader_call (log_of (validated_run r args w1)) = false /\
  forall cmd,
    In (ERun cmd) (log_of (validated_run r args w1)) ->
    cmd = engine_cmd r (distorted args) (metrics args).
Proof.
  pose proof (check_files_cases r (distorted args) w1) as Hc.
  pose proof (compare_log r (distorted args) (Some (metrics args)) w1) as [Hd Hcmd].
  destruct (os_path_exists r w1);
    [destruct (os_path_exists (distorted args) w1)|].
  - rewrite (bind_ret _ _ _ _ _ _ Hc).
    destruct (compare r (distorted args) (Some (metrics args)) w1)
      as [[w3 l3] [results| |]] eqn:Hrun.
    + rewrite (bind_ret _ _ _ _ _ _ Hrun).
      unfold report, log_of in *; cbn [fst snd] in *. split.
      * rewrite !existsb_app, Hd, existsb_prints by reflexivity. reflexivity.
      * intros cmd Hin. apply Hcmd.
        apply in_app_or in Hin as [Hin|Hin].
        -- simpl in Hin. intuition congruence.
        -- apply in_app_or in Hin as [Hin|Hin]; [exact Hin|].
           apply in_map_iff in Hin as (l & [=] & _).
    + rewrite (bind_exit _ _ _ _ _ _ Hrun).
      unfold log_of in *; cbn [fst snd] in *. split.
      * rewrite !existsb_app, Hd. reflexivity.
      * intros cmd Hin. apply Hcmd.
        apply in_app_or in Hin as [Hin|Hin]; [|exact Hin].
        simpl in Hin. intuition congruence.
    + rewrite (bind_raise _ _ _ _ _ _ Hrun).
      unfold log_of in *; cbn [fst snd] in *. split.
      * rewrite !existsb_app, Hd. reflexivity.
      * intros cmd Hin. apply Hcmd.
        apply in_app_or in Hin as [Hin|Hin]; [|exact Hin].
        simpl in Hin. intuition congruence.
  - rewrite (bind_exit _ _ _ _ _ _ Hc). unfold log_of; cbn [fst snd].
    split; [reflexivity|]. intros cmd Hin. simpl in Hin. intuition congruence.
  - rewrite (bind_exit _ _ _ _ _ _ Hc). unfold log_of; cbn [fst snd].
    split; [reflexivity|]. intros cmd Hin. simpl in Hin. intuition congruence.
Qed.

(** With a non-empty URL the downloader is started exactly once, before
    any existence check; when it fails (non-zero exit, or executable not
    found) the program exits with code 1 and the metrics engine is never
    started. *)
Lemma youtube_download_first :
  forall (args : Args) (url : string) (w : World),
    youtube args = Some url -> url <> EmptyString ->
    let out := match youtube_output args with
               | None => os_path_join (gettempdir w) "youtube_download.mp4"
               | Some p => p
               end in
    let cmd := downloader_cmd url out in
    (exists rest,
        log_of (main_ args w) =
        app [EPrint ("Downloading YouTube video from: " ++ url);
             EPrint ("Saving to: " ++ out); ERun cmd] rest /\
        existsb is_downloader_call rest = false) /\
    is_downloader_call (ERun cmd) = true /\
    (forall code stdout stderr,
        snd (subprocess_run cmd w) = CalledProcessError code stdout stderr \/
        snd (subprocess_run cmd w) = RunRaised FileNotFoundError ->
        outcome_of (main_ args w) = Exit 1 /\
        existsb is_engine_call (log_of (main_ args w)) = false).
Proof.
  intros args url w Hy Hurl out cmd.
  assert (Hres : resolve args w =
                 bind World (download url (youtube_output args))
                      (fun p => ret World (Some p)) w).
  { unfold resolve_reference. rewrite Hy.
    apply String.eqb_neq in Hurl. now rewrite Hurl. }
  pose proof (download_youtube_video_cases url (youtube_output args) w) as Hdl.
  cbv zeta in Hdl. fold out in Hdl. fold cmd in Hdl.
  split; [|split; [reflexivity|]].
  - destruct (subprocess_run cmd w) as [w' [so se|code so se|e]] eqn:Hrun.
    + assert (Hr : resolve args w =
                   (w', [EPrint ("Downloading YouTube video from: " ++ url);
                         EPrint ("Saving to: " ++ out); ERun cmd], Ret (Some out))).
      { rewrite Hres. rewrite (bind_ret _ _ _ _ _ _ Hdl). reflexivity. }
      rewrite (main_resolved args w _ _ _ Hr). unfold log_of at 1; cbn [fst snd].
      eexists; split; [reflexivity|]. apply validated_run_log.
    + assert (Hr : resolve args w =
                   (w', app [EPrint ("Downloading YouTube video from: " ++ url);
                             EPrint ("Saving to: " ++ out); ERun cmd]
                            [EPrint ("Error downloading YouTube video: "
                                       ++ str_CalledProcessError cmd code)], Exit 1)).
      { rewrite Hres. now rewrite (bind_exit _ _ _ _ _ _ Hdl). }
      unfold main. rewrite (bind_exit _ _ _ _ _ _ Hr).
      eexists; split; reflexivity.
    + destruct e;
        try (assert (Hr : resolve args w =
                     (w', [EPrint ("Downloading YouTube video from: " ++ url);
                           EPrint ("Saving to: " ++ out); ERun cmd], Raise _))
               by (rewrite Hres; now rewrite (bind_raise _ _ _ _ _ _ Hdl));
             unfold main; rewrite (bind_raise _ _ _ _ _ _ Hr);
             exists []; split; reflexivity).
      assert (Hr : resolve args w =
                   (w', app [EPrint ("Downloading YouTube video from: " ++ url);
                             EPrint ("Saving to: " ++ out); ERun cmd]
                            [EPrint "Error: yt-dlp not found. Install it with: pip install yt-dlp"],
                    Exit 1)).
      { rewrite Hres. now rewrite (bind_exit _ _ _ _ _ _ Hdl). }
      unfold main. rewrite (bind_exit _ _ _ _ _ _ Hr).
      eexists; split; reflexivity.
  - intros code so se Hfail.
    destruct (subprocess_run cmd w) as [w' r] eqn:Hrun. cbn [snd] in Hfail.
    destruct Hfail as [-> | ->].
    + assert (Hr : resolve args w =
                   (w', app [EPrint ("Downloading YouTube video from: " ++ url);
                             EPrint ("Saving to: " ++ out); ERun cmd]
                            [EPrint ("Error downloading YouTube video: "
                                       ++ str_CalledProcessError cmd code)], Exit 1)).
      { rewrite Hres. now rewrite (bind_exit _ _ _ _ _ _ Hdl). }
      unfold main. rewrite (bind_exit _ _ _ _ _ _ Hr). split; reflexivity.
    + assert (Hr : resolve args w =
                   (w', app [EPrint ("Downloading YouTube video from: " ++ url);
                             EPrint ("Saving to: " ++ out); ERun cmd]
                            [EPrint "Error: yt-dlp not found. Install it with: pip install yt-dlp"],
                    Exit 1)).
      { rewrite Hres. now rewrite (bind_exit _ _ _ _ _ _ Hdl). }
      unfold main. rewrite (bind_exit _ _ _ _ _ _ Hr). split; reflexivity.
Qed.

(** C10.  With a local reference path and no [--youtube] option the
    resolver hands the path back unchanged, without any effect; the whole
    run starts no downloader, and the only command it may start is the
    metrics engine on that very path. *)
Theorem local_reference_passthrough :
  forall (args : Args) (p : string) (w : World),
    youtube args = None -> reference args = Some p ->
    resolve args w = (w, [], Ret (Some p)) /\
    existsb is_downloader_call (log_of (main_ args w)) = false /\
    (forall cmd,
        In (ERun cmd) (log_of (main_ args w)) ->
        cmd = engine_cmd p (distorted args) (metrics args)).
Proof.
  intros args p w Hy Hr.
  assert (Hres : resolve args w = (w, [], Ret (Some p))).
  { unfold resolve_reference. rewrite Hy, Hr. reflexivity. }
  split; [exact Hres|].
  rewrite (main_resolved args w _ _ _ Hres). unfold log_of at 1 3; cbn [fst snd app].
  apply validated_run_log.
Qed.

End OrchestrationFacts.

(** ** Sample runs *)

(** The distorted file is missing: the run stops at validation. *)
Lemma missing_file_exits_witness :
  demo_main demo_run args_local ["ref.mp4"] =
  (["ref.mp4"],
   [EExists "ref.mp4"; EExists "dist.mp4";
    EPrint "Error: Video file not found: dist.mp4"],
   Exit 1) /\
  existsb is_engine_call (log_of (demo_main demo_run args_local ["ref.mp4"])) = false.
Proof.
  exact (missing_file_exits (list string) demo_run demo_exists demo_tempdir
           demo_join demo_loads demo_error_str plain_float_repr plain_encode
           args_local ["ref.mp4"] ["ref.mp4"] [] "ref.mp4"
           eq_refl (or_intror eq_refl)).
Defined.

(** A local reference: no downloader, and the engine gets the path as is. *)
Lemma local_reference_passthrough_witness :
  resolve_reference (list string) demo_run demo_tempdir demo_join demo_error_str
    args_local ["ref.mp4"; "dist.mp4"] =
  (["ref.mp4"; "dist.mp4"], [], Ret (Some "ref.mp4")) /\
  existsb is_downloader_call
    (log_of (demo_main demo_run args_local ["ref.mp4"; "dist.mp4"])) = false /\
  (forall cmd,
      In (ERun cmd) (log_of (demo_main demo_run args_local ["ref.mp4"; "dist.mp4"])) ->
      cmd = ["ffmpeg-quality-metrics"; "ref.mp4"; "dist.mp4"; "--metrics"; "vmaf"]).
Proof.
  exact (local_reference_passthrough (list string) demo_run demo_exists demo_tempdir
           demo_join demo_loads demo_error_str plain_float_repr plain_encode
           args_local "ref.mp4" ["ref.mp4"; "dist.mp4"] eq_refl eq_refl).
Defined.

(** A download followed by a comparison: the downloader comes first,
    then the two existence checks, then the engine, then the report. *)
Lemma youtube_run_trace :
  filter (fun e => negb (match e with EPrint _ => true | _ => false end))
         (log_of (demo_main demo_run args_youtube ["dist.mp4"])) =
  [ERun (downloader_cmd "https://youtu.be/x" "/tmp/youtube_download.mp4");
   EExists "/tmp/youtube_download.mp4";
   EExists "dist.mp4";
   ERun ["ffmpeg-quality-metrics"; "/tmp/youtube_download.mp4"; "dist.mp4";
         "--metrics"; "vmaf"]] /\
  outcome_of (demo_main demo_run args_youtube ["dist.mp4"]) = Ret tt.
Proof. split; vm_compute; reflexivity. Qed.

(** Without the downloader executable the run stops before validation. *)
Lemma youtube_no_downloader_trace :
  demo_main demo_run_no_downloader args_youtube ["dist.mp4"] =
  (["dist.mp4"],
   [EPrint "Downloading YouTube video from: https://youtu.be/x";
    EPrint "Saving to: /tmp/youtube_download.mp4";
    ERun (downloader_cmd "https://youtu.be/x" "/tmp/youtube_download.mp4");
    EPrint "Error: yt-dlp not found. Install it with: pip install yt-dlp"],
   Exit 1).
Proof. vm_compute. reflexivity. Qed.

(* ================================================================= *)
(** * Further properties of the reporter *)

(** ** The reporter never leaves through [sys.exit] *)

Lemma obind_no_exit {A B} (c : outcome A) (k : A -> outcome B) :
  exits c = false -> (forall a, exits (k a) = false) -> exits (obind c k) = false.
Proof. destruct c; simpl; auto. Qed.

Lemma pbind_no_exit {A B} (c : Pr A) (k : A -> Pr B) :
  exits (snd c) = false -> (forall a, exits (snd (k a)) = false) ->
  exits (snd (pbind c k)) = false.
Proof.
  destruct c as [o [a| |]]; simpl; intros Hc Hk; try discriminate; try reflexivity.
  unfold pbind. specialize (Hk a). destruct (k a). exact Hk.
Qed.

Lemma format_f_no_exit n v : exits (format_f n v) = false.
Proof.
  destruct v as [ |b|z|f|s|l|d]; try reflexivity; simpl;
    unfold float_of_int;
    match goal with
    | |- context [binary_normalize ?p ?e ?m ?x ?s] =>
        destruct (binary_normalize p e m x s); reflexivity
    end.
Qed.

Lemma py_lt_no_exit a b : exits (py_lt a b) = false.
Proof.
  unfold py_lt.
  destruct (json_value a), (json_value b); try reflexivity;
    destruct a; try reflexivity; destruct b; reflexivity.
Qed.

Lemma quality_tier_no_exit v : exits (quality_tier v) = false.
Proof.
  unfold quality_tier.
  repeat (apply obind_no_exit; [apply py_lt_no_exit|];
          intros []; [reflexivity|]).
  reflexivity.
Qed.

Lemma frame_vmaf_no_exit fr : exits (frame_vmaf fr) = false.
Proof.
  destruct fr; try reflexivity. simpl.
  destruct (dict_get d "metrics" (JObj [])); reflexivity.
Qed.

Lemma min_loop_no_exit frames : forall best, exits (min_loop best frames) = false.
Proof.
  induction frames as [|fr rest IH]; intro best; [reflexivity|].
  cbn [min_loop].
  apply obind_no_exit; [apply frame_vmaf_no_exit|]. intro v.
  apply obind_no_exit; [apply py_lt_no_exit|]. intro b. apply IH.
Qed.

Lemma max_loop_no_exit frames : forall best, exits (max_loop best frames) = false.
Proof.
  induction frames as [|fr rest IH]; intro best; [reflexivity|].
  cbn [max_loop].
  apply obind_no_exit; [apply frame_vmaf_no_exit|]. intro v.
  apply obind_no_exit; [apply py_lt_no_exit|]. intro b. apply IH.
Qed.

Lemma py_min_no_exit frames : exits (py_min frames) = false.
Proof.
  destruct frames as [|fr rest]; [reflexivity|]. cbn [py_min].
  apply obind_no_exit; [apply frame_vmaf_no_exit|]. intro v. apply min_loop_no_exit.
Qed.

Lemma py_max_no_exit frames : exits (py_max frames) = false.
Proof.
  destruct frames as [|fr rest]; [reflexivity|]. cbn [py_max].
  apply obind_no_exit; [apply frame_vmaf_no_exit|]. intro v. apply max_loop_no_exit.
Qed.

Lemma print_all_no_exit lines : exits (snd (print_all lines)) = false.
Proof.
  induction lines as [|l r IH]; [reflexivity|]. cbn [print_all].
  apply pbind_no_exit; [reflexivity|]. intros _. exact IH.
Qed.

Ltac no_exit_step :=
  first
    [ reflexivity
    | apply format_f_no_exit | apply quality_tier_no_exit
    | apply py_min_no_exit | apply py_max_no_exit
    | apply print_all_no_exit
    | apply pbind_no_exit; [|intro] ].

Lemma display_vmaf_score_no_exit d : exits (snd (display_vmaf_score d)) = false.
Proof.
  unfold display_vmaf_score.
  destruct (truthy (dict_get d "mean" JNull)); [|reflexivity].
  unfold lift; cbn [snd]. repeat no_exit_step.
Qed.

Lemma display_vmaf_frames_no_exit d : exits (snd (display_vmaf_frames d)) = false.
Proof.
  unfold display_vmaf_frames.
  destruct (dict_mem "frames" d && truthy (dict_get d "frames" JNull))%bool;
    [|reflexivity].
  apply pbind_no_exit; [reflexivity|]. intros _.
  apply pbind_no_exit;
    [unfold lift; cbn [snd]; destruct (dict_get d "frames" JNull); reflexivity|].
  intro n. apply pbind_no_exit; [reflexivity|]. intros _.
  apply pbind_no_exit;
    [unfold lift; cbn [snd]; destruct (dict_get d "frames" JNull); reflexivity|].
  intro items. unfold lift. repeat no_exit_step.
  destruct (dict_get d "frames" JNull); reflexivity.
Qed.

Lemma display_components_no_exit metric d :
  exits (snd (display_components metric d)) = false.
Proof.
  induction d as [|[component value] rest IH]; [reflexivity|].
  cbn [display_components].
  apply pbind_no_exit; [|intros _; exact IH].
  destruct (negb (String.eqb component "frames")); [|reflexivity].
  unfold lift. repeat no_exit_step.
Qed.

Lemma display_items_app fr enc xs ys :
  display_items fr enc (xs ++ ys) =
  pbind (display_items fr enc xs) (fun _ => display_items fr enc ys).
Proof.
  induction xs as [|[metric data] rest IH]; cbn [display_items app].
  - now rewrite pbind_pret.
  - now rewrite IH, pbind_assoc.
Qed.

Section ReporterShape.

Variable float_repr : spec_float -> string.
Variable encode_basestring_ascii : string -> string.

Lemma display_metric_no_exit metric data :
  exits (snd (display_metric float_repr encode_basestring_ascii metric data)) = false.
Proof.
  unfold display_metric.
  apply pbind_no_exit; [reflexivity|]. intros _.
  apply pbind_no_exit; [|reflexivity].
  destruct (String.eqb metric "vmaf").
  - destruct data; try reflexivity.
    apply pbind_no_exit; [apply display_vmaf_score_no_exit|].
    intros _. apply display_vmaf_frames_no_exit.
  - destruct (String.eqb metric "psnr" || String.eqb metric "ssim")%bool.
    + destruct data; try reflexivity. apply display_components_no_exit.
    + reflexivity.
Qed.

Lemma display_results_no_exit results :
  exits (snd (display_results float_repr encode_basestring_ascii results)) = false.
Proof.
  unfold display_results.
  apply pbind_no_exit; [reflexivity|]. intros _.
  destruct results as [ |b|z|f|s|l|items]; try reflexivity.
  induction items as [|[metric data] rest IH]; [reflexivity|].
  cbn [display_items].
  apply pbind_no_exit; [apply display_metric_no_exit|]. intros _. exact IH.
Qed.

(** X3.  The reporter has no [sys.exit]: whatever document it is given,
    it either returns or lets an exception escape. *)
Theorem display_results_never_exits :
  forall results : json,
    snd (display_results float_repr encode_basestring_ascii results) = Ret tt \/
    exists e,
      snd (display_results float_repr encode_basestring_ascii results) = Raise e.
Proof.
  intro results. pose proof (display_results_no_exit results) as H.
  destruct (snd (display_results float_repr encode_basestring_ascii results))
    as [[]|code|e]; [left; reflexivity | discriminate | right; eauto].
Qed.

(** The blocks of the items that return, one after the other. *)
Lemma display_items_blocks items :
  forallb (block_returns float_repr encode_basestring_ascii) items = true ->
  display_items float_repr encode_basestring_ascii items =
  (List.concat (map (block_lines float_repr encode_basestring_ascii) items), Ret tt).
Proof.
  induction items as [|[metric data] rest IH]; intro Hok; [reflexivity|].
  simpl in Hok. apply andb_prop in Hok as [Hb Hrest].
  cbn [display_items map List.concat]. rewrite (IH Hrest).
  unfold block_returns, block_lines in *. cbn [fst snd] in *.
  destruct (display_metric float_repr encode_basestring_ascii metric data)
    as [o [[]| |]]; try discriminate.
  reflexivity.
Qed.

(** X1.  The reporter walks the document in its own order: when the
    block of every metric returns, the report is the banner followed by
    the blocks of the metrics, in the order of the items. *)
Theorem display_results_in_order :
  forall items : list (string * json),
    forallb (block_returns float_repr encode_basestring_ascii) items = true ->
    display_results float_repr encode_basestring_ascii (JObj items) =
    (banner :: List.concat (map (block_lines float_repr encode_basestring_ascii) items),
     Ret tt).
Proof.
  intros items Hok. unfold display_results. fold banner.
  rewrite (display_items_blocks items Hok). reflexivity.
Qed.

(** X2.  The reporter stops at the first metric whose block raises: the
    blocks before it are printed in full, its own lines up to the
    exception are printed, the exception escapes, and nothing of the
    later metrics is printed. *)
Theorem display_results_stops_at_failure :
  forall (earlier later : list (string * json)) (metric : string) (data : json)
         (e : exn),
    forallb (block_returns float_repr encode_basestring_ascii) earlier = true ->
    snd (display_metric float_repr encode_basestring_ascii metric data) = Raise e ->
    display_results float_repr encode_basestring_ascii
      (JObj (earlier ++ (metric, data) :: later)) =
    (banner ::
       app (List.concat (map (block_lines float_repr encode_basestring_ascii) earlier))
           (block_lines float_repr encode_basestring_ascii (metric, data)),
     Raise e).
Proof.
  intros earlier later metric data e Hok Hraise.
  unfold display_results. fold banner.
  rewrite display_items_app, (display_items_blocks earlier Hok).
  cbn [display_items].
  change (block_lines float_repr encode_basestring_ascii (metric, data))
    with (fst (display_metric float_repr encode_basestring_ascii metric data)).
  destruct (display_metric float_repr encode_basestring_ascii metric data)
    as [o r]. cbn [fst snd] in *. subst r.
  reflexivity.
Qed.

(** X5.  A block that returns starts with the header of its metric and
    ends with the blank line. *)
Theorem metric_block_shape :
  forall (metric : string) (data : json),
    returns (snd (display_metric float_repr encode_basestring_ascii metric data))
    = true ->
    exists body,
      fst (display_metric float_repr encode_basestring_ascii metric data) =
      ("=== " ++ upper metric ++ " Results ===") :: app body [EmptyString].
Proof.
  intros metric data. unfold display_metric.
  rewrite pbind_print. cbn [fst snd].
  match goal with
  | |- context [pbind ?c _] => destruct c as [body [[]| |]]
  end; try discriminate.
  intros _. exists body. reflexivity.
Qed.

(** X4.  A document that is not an object gets the banner and an
    [AttributeError]; so does, after its header, a "vmaf", "psnr" or
    "ssim" entry whose value is not an object. *)
Theorem display_results_wrong_shape :
  forall (results : json) (metric : string),
    is_object results = false ->
    (metric = "vmaf" \/ metric = "psnr" \/ metric = "ssim") ->
    display_results float_repr encode_basestring_ascii results =
    ([banner], Raise AttributeError) /\
    forall later,
      display_results float_repr encode_basestring_ascii
        (JObj ((metric, results) :: later)) =
      ([banner; "=== " ++ upper metric ++ " Results ==="], Raise AttributeError).
Proof.
  intros results metric Hshape Hm. split.
  - destruct results; try discriminate; reflexivity.
  - intro later.
    destruct Hm as [-> | [-> | ->]];
      destruct results; try discriminate; reflexivity.
Qed.

End ReporterShape.

Lemma display_results_in_order_witness :
  display_results plain_float_repr plain_encode
    (JObj [("psnr", JObj [("psnr_avg", JFloat f_45_12345)]);
           ("foo", JInt 1);
           ("vmaf", JObj [("mean", JFloat f_92_5)])]) =
  (banner ::
     List.concat (map (block_lines plain_float_repr plain_encode)
               [("psnr", JObj [("psnr_avg", JFloat f_45_12345)]);
                ("foo", JInt 1);
                ("vmaf", JObj [("mean", JFloat f_92_5)])]),
   Ret tt).
Proof.
  exact (display_results_in_order plain_float_repr plain_encode
           [("psnr", JObj [("psnr_avg", JFloat f_45_12345)]);
            ("foo", JInt 1);
            ("vmaf", JObj [("mean", JFloat f_92_5)])] eq_refl).
Defined.

Lemma display_results_stops_at_failure_witness :
  display_results plain_float_repr plain_encode
    (JObj (app [("foo", JInt 1)]
               (("psnr", JObj [("psnr_avg", JFloat f_45_12345); ("psnr_y", JStr "n/a")])
                  :: [("vmaf", JObj [("mean", JFloat f_92_5)])]))) =
  (banner ::
     app (List.concat (map (block_lines plain_float_repr plain_encode) [("foo", JInt 1)]))
         (block_lines plain_float_repr plain_encode
            ("psnr", JObj [("psnr_avg", JFloat f_45_12345); ("psnr_y", JStr "n/a")])),
   Raise ValueError).
Proof.
  exact (display_results_stops_at_failure plain_float_repr plain_encode
           [("foo", JInt 1)] [("vmaf", JObj [("mean", JFloat f_92_5)])]
           "psnr" (JObj [("psnr_avg", JFloat f_45_12345); ("psnr_y", JStr "n/a")])
           ValueError eq_refl eq_refl).
Defined.

Lemma metric_block_shape_witness :
  exists body,
    fst (display_metric plain_float_repr plain_encode "vmaf"
           (JObj [("mean", JFloat f_92_5)])) =
    ("=== " ++ upper "vmaf" ++ " Results ===") :: app body [EmptyString].
Proof.
  exact (metric_block_shape plain_float_repr plain_encode "vmaf"
           (JObj [("mean", JFloat f_92_5)]) eq_refl).
Defined.

Lemma display_results_wrong_shape_witness :
  display_results plain_float_repr plain_encode (JArr [JInt 1]) =
  ([banner], Raise AttributeError) /\
  forall later,
    display_results plain_float_repr plain_encode
      (JObj (("vmaf", JArr [JInt 1]) :: later)) =
    ([banner; "=== " ++ upper "vmaf" ++ " Results ==="], Raise AttributeError).
Proof.
  exact (display_results_wrong_shape plain_float_repr plain_encode
           (JArr [JInt 1]) "vmaf" eq_refl (or_introl eq_refl)).
Defined.

(** ** The tier, without a range *)

(** X6.  The chain of comparisons has no lower and no upper bound: for
    any finite number the tier is "Bad" iff the value is below 20, "Poor"
    iff it is in [20, 40), "Fair" iff in [40, 60), "Good" iff in [60, 80)
    and "Excellent" iff it is at least 80; a NaN and plus infinity are
    "Excellent", minus infinity is "Bad". *)
Theorem quality_tier_thresholds :
  forall (v : json) (q : Q),
    json_value v = Some (XFin q) ->
    (quality_tier v = Ret "Bad" <-> (q < 20)%Q) /\
    (quality_tier v = Ret "Poor" <-> (20 <= q < 40)%Q) /\
    (quality_tier v = Ret "Fair" <-> (40 <= q < 60)%Q) /\
    (quality_tier v = Ret "Good" <-> (60 <= q < 80)%Q) /\
    (quality_tier v = Ret "Excellent" <-> (80 <= q)%Q) /\
    (forall f, float_value f = XNaN \/ float_value f = XPosInf ->
               quality_tier (JFloat f) = Ret "Excellent") /\
    (forall f, float_value f = XNegInf -> quality_tier (JFloat f) = Ret "Bad").
Proof.
  intros v q Hv.
  rewrite (quality_tier_finite v q Hv).
  repeat match goal with |- _ /\ _ => split end.
  - split; [intro H; revert H; tier_cases q; intro H; first [discriminate H | lra]
           | intro H; tier_cases q; first [reflexivity | lra]].
  - split; [intro H; revert H; tier_cases q; intro H;
            first [discriminate H | split; lra]
           | intros [H1 H2]; tier_cases q; first [reflexivity | lra]].
  - split; [intro H; revert H; tier_cases q; intro H;
            first [discriminate H | split; lra]
           | intros [H1 H2]; tier_cases q; first [reflexivity | lra]].
  - split; [intro H; revert H; tier_cases q; intro H;
            first [discriminate H | split; lra]
           | intros [H1 H2]; tier_cases q; first [reflexivity | lra]].
  - split; [intro H; revert H; tier_cases q; intro H; first [discriminate H | lra]
           | intro H; tier_cases q; first [reflexivity | lra]].
  - intros f [H|H]; destruct f as [s|s| |s m e]; try destruct s;
      simpl in H; try discriminate; reflexivity.
  - intros f H; destruct f as [s|s| |s m e]; try destruct s;
      simpl in H; try discriminate; reflexivity.
Qed.

Lemma quality_tier_thresholds_witness :
  quality_tier (JInt (-5)) = Ret "Bad" /\ quality_tier (JInt 250) = Ret "Excellent".
Proof.
  split.
  - apply (proj1 (quality_tier_thresholds (JInt (-5)) (inject_Z (-5)) eq_refl)).
    unfold Qlt; simpl; lia.
  - apply (proj1 (proj2 (proj2 (proj2 (proj2
             (quality_tier_thresholds (JInt 250) (inject_Z 250) eq_refl)))))).
    unfold Qle; simpl; lia.
Defined.

(** X7.  The classification is monotone: a score that is not smaller
    never gets a lower tier. *)
Theorem quality_tier_monotone :
  forall (v1 v2 : json) (p q : Q),
    json_value v1 = Some (XFin p) ->
    json_value v2 = Some (XFin q) ->
    (p <= q)%Q ->
    exists t1 t2,
      quality_tier v1 = Ret t1 /\ quality_tier v2 = Ret t2 /\
      (tier_rank t1 <= tier_rank t2)%nat.
Proof.
  intros v1 v2 p q H1 H2 Hle.
  exists (tier_of p), (tier_of q).
  rewrite (quality_tier_finite v1 p H1), (quality_tier_finite v2 q H2).
  split; [reflexivity|]. split; [reflexivity|].
  unfold tier_of.
  destruct (Qltb p 20) eqn:P20; [apply Qltb_lt in P20 | apply Qltb_ge in P20];
  (destruct (Qltb p 40) eqn:P40; [apply Qltb_lt in P40 | apply Qltb_ge in P40]);
  (destruct (Qltb p 60) eqn:P60; [apply Qltb_lt in P60 | apply Qltb_ge in P60]);
  (destruct (Qltb p 80) eqn:P80; [apply Qltb_lt in P80 | apply Qltb_ge in P80]);
  (destruct (Qltb q 20) eqn:Q20; [apply Qltb_lt in Q20 | apply Qltb_ge in Q20]);
  (destruct (Qltb q 40) eqn:Q40; [apply Qltb_lt in Q40 | apply Qltb_ge in Q40]);
  (destruct (Qltb q 60) eqn:Q60; [apply Qltb_lt in Q60 | apply Qltb_ge in Q60]);
  (destruct (Qltb q 80) eqn:Q80; [apply Qltb_lt in Q80 | apply Qltb_ge in Q80]);
  first [ exfalso; lra | vm_compute; lia ].
Qed.

Lemma quality_tier_monotone_witness :
  exists t1 t2,
    quality_tier (JInt 39) = Ret t1 /\ quality_tier (JFloat f_92_5) = Ret t2 /\
    (tier_rank t1 <= tier_rank t2)%nat.
Proof.
  apply (quality_tier_monotone (JInt 39) (JFloat f_92_5)
           (inject_Z 39) (mag_Q 6509108836433920 (-46)) eq_refl eq_refl).
  unfold Qle; simpl; lia.
Defined.

(** ** The score part, for every shape of 'mean' *)

Lemma mag_Q_pos m e : (0 < mag_Q m e)%Q.
Proof.
  unfold mag_Q, Qlt. destruct e as [|p|p]; cbn [Qnum Qden].
  - lia.
  - pose proof (Z.pow_pos_nonneg 2 (Z.pos p) ltac:(lia) ltac:(lia)). nia.
  - lia.
Qed.

Lemma truthy_zero_value v q :
  json_value v = Some (XFin q) -> (q == 0)%Q -> truthy v = false.
Proof.
  destruct v as [ |b|z|f|s|l|d]; simpl; try discriminate.
  - destruct b; [|reflexivity]. intros [= <-] H. discriminate H.
  - intros [= <-] H. unfold Qeq in H; simpl in H.
    replace z with 0 by lia. reflexivity.
  - destruct f as [s|s| |s m e]; simpl; try discriminate; try reflexivity.
    + destruct s; discriminate.
    + intros [= <-] H. pose proof (mag_Q_pos m e) as Hpos.
      destruct s; [|lra].
      assert (mag_Q m e == 0)%Q by (rewrite <- (Qopp_involutive (mag_Q m e)), H; reflexivity).
      lra.
Qed.

Lemma accepts_f_number v q :
  json_value v = Some (XFin q) -> accepts_f 2 v = false ->
  (exists z, v = JInt z) /\ format_f 2 v = Raise OverflowError.
Proof.
  unfold accepts_f.
  destruct v as [ |b|z|f|s|l|d]; simpl; try discriminate.
  - destruct b; discriminate.
  - intros _. unfold float_of_int.
    destruct (binary_normalize 53 1024 z 0 false); simpl; try discriminate.
    intros _. split; [eauto | reflexivity].
Qed.

(** X8.  A 'mean' that is a finite number: a zero prints nothing and the
    score part returns; a non-zero value that [.2f] accepts gets the
    score line with its two-decimal text, the six legend lines and the
    line with the tier of the value, and the score part returns; only an
    [int] can be refused by [.2f] (it is too large for a [float]), and
    then [OverflowError] escapes before anything is printed. *)
Theorem score_printed_iff_nonzero :
  forall (d : list (string * json)) (v : json) (q : Q),
    dict_find "mean" d = Some v ->
    json_value v = Some (XFin q) ->
    ((q == 0)%Q -> display_vmaf_score d = ([], Ret tt)) /\
    (~ (q == 0)%Q -> accepts_f 2 v = true ->
     display_vmaf_score d =
     (("VMAF Score: " ++ fmt 2 v ++ " / 100.0")
        :: app legend [nl ++ "This video's quality is rated as: " ++ tier_of q],
      Ret tt)) /\
    (~ (q == 0)%Q -> accepts_f 2 v = false ->
     (exists z, v = JInt z) /\
     display_vmaf_score d = ([], Raise OverflowError)).
Proof.
  intros d v q Hfind Hv. repeat match goal with |- _ /\ _ => split end.
  - intro Hz. unfold display_vmaf_score, dict_get. rewrite Hfind.
    now rewrite (truthy_zero_value v q Hv Hz).
  - intros Hnz Hacc. exact (display_vmaf_score_nonzero d v q Hfind Hv Hnz Hacc).
  - intros Hnz Hacc. split; [exact (proj1 (accepts_f_number v q Hv Hacc))|].
    unfold display_vmaf_score, dict_get. rewrite Hfind.
    rewrite (truthy_nonzero v q Hv Hnz).
    rewrite (proj2 (accepts_f_number v q Hv Hacc)). reflexivity.
Qed.

Lemma score_printed_iff_nonzero_witness :
  display_vmaf_score [("mean", JInt (-7))] =
  ("VMAF Score: -7.00 / 100.0"
     :: app legend [nl ++ "This video's quality is rated as: Bad"], Ret tt) /\
  display_vmaf_score [("mean", JInt (2 ^ 1024))] = ([], Raise OverflowError).
Proof.
  split.
  - refine (proj1 (proj2 (score_printed_iff_nonzero [("mean", JInt (-7))]
                            (JInt (-7)) (inject_Z (-7)) eq_refl eq_refl)) _ eq_refl).
    discriminate.
  - refine (proj2 (proj2 (proj2 (score_printed_iff_nonzero
                                   [("mean", JInt (2 ^ 1024))] (JInt (2 ^ 1024))
                                   (inject_Z (2 ^ 1024)) eq_refl eq_refl))
                     _ eq_refl)).
    discriminate.
Defined.

(** X9.  A 'mean' that is not a number: when it is absent, null or
    empty ("", [], {}) the score part is skipped without an error; a
    non-empty string raises [ValueError] and a non-empty list or object
    raises [TypeError], in both cases before anything is printed. *)
Theorem score_of_non_number :
  forall d : list (string * json),
    (dict_find "mean" d = None -> display_vmaf_score d = ([], Ret tt)) /\
    (forall v,
        dict_find "mean" d = Some v -> json_value v = None ->
        display_vmaf_score d =
        ([], if truthy v
             then Raise (match v with JStr _ => ValueError | _ => TypeError end)
             else Ret tt)).
Proof.
  intro d. split.
  - intro H. unfold display_vmaf_score, dict_get. now rewrite H.
  - intros v Hfind Hv. unfold display_vmaf_score, dict_get. rewrite Hfind.
    destruct v as [ |b|z|f|s|l|items]; simpl in Hv; try discriminate.
    + reflexivity.
    + destruct s; reflexivity.
    + destruct l; reflexivity.
    + destruct items; reflexivity.
Qed.

Lemma score_of_non_number_witness :
  display_vmaf_score [("mean", JStr "92.5")] = ([], Raise ValueError).
Proof.
  exact (proj2 (score_of_non_number [("mean", JStr "92.5")]) (JStr "92.5")
           eq_refl eq_refl).
Defined.

(** ** Partial output *)

(** X10.  The component loop prints as it goes: when the first value
    that [.4f] rejects belongs to a key other than 'frames', the lines of
    the components before it are already printed, the exception escapes,
    and no later component is printed. *)
Theorem display_components_stops :
  forall (metric : string) (earlier later : list (string * json))
         (component : string) (value : json) (e : exn),
    forallb component_ok earlier = true ->
    component <> "frames" ->
    format_f 4 value = Raise e ->
    display_components metric (earlier ++ (component, value) :: later) =
    (component_lines metric earlier, Raise e).
Proof.
  intros metric earlier later component value e Hok Hkey Hfmt.
  induction earlier as [|[k v] rest IH].
  - cbn [app display_components]. apply String.eqb_neq in Hkey.
    rewrite Hkey. cbn [negb]. rewrite Hfmt. reflexivity.
  - simpl in Hok. apply andb_prop in Hok as [Hkv Hrest].
    cbn [app display_components]. rewrite (IH Hrest).
    unfold component_lines, component_ok in *. cbn [filter fst snd] in *.
    destruct (String.eqb k "frames"); cbn [negb orb] in *.
    + rewrite pbind_pret. reflexivity.
    + rewrite (accepts_fmt 4 v Hkv), pbind_lift_ret.
      rewrite (pbind_fst_ret (print _) _ tt eq_refl). reflexivity.
Qed.

Lemma display_components_stops_witness :
  display_components "psnr"
    (app [("psnr_avg", JFloat f_45_12345); ("frames", JNull)]
         (("psnr_y", JNull) :: [("psnr_u", JInt 40)])) =
  (component_lines "psnr" [("psnr_avg", JFloat f_45_12345); ("frames", JNull)],
   Raise TypeError).
Proof.
  refine (display_components_stops "psnr"
            [("psnr_avg", JFloat f_45_12345); ("frames", JNull)]
            [("psnr_u", JInt 40)] "psnr_y" JNull TypeError eq_refl _ eq_refl).
  discriminate.
Defined.

Lemma min_loop_app xs : forall best ys,
  min_loop best (xs ++ ys) = obind (min_loop best xs) (fun b => min_loop b ys).
Proof.
  induction xs as [|fr rest IH]; intros best ys; [reflexivity|].
  cbn [app min_loop].
  destruct (frame_vmaf fr) as [v| |]; try reflexivity. cbn [obind].
  destruct (py_lt v best) as [b| |]; try reflexivity. cbn [obind].
  apply IH.
Qed.

(** X11.  One malformed frame record (not an object, or with a
    'metrics' that is not an object) anywhere after well-formed ones
    aborts the frame details: the banner and the frame count are printed,
    then [AttributeError] escapes, and neither the minimum nor the
    maximum is printed. *)
Theorem display_vmaf_frames_malformed :
  forall (d : list (string * json)) (earlier later : list json) (fr : json),
    dict_find "frames" d = Some (JArr (earlier ++ fr :: later)) ->
    forallb frame_ok earlier = true ->
    returns (frame_vmaf fr) = false ->
    display_vmaf_frames d =
    ([nl ++ "=== Frame-by-Frame Details ===";
      "Analyzed " ++ str_of_nat (List.length (earlier ++ fr :: later)) ++ " frames"],
     Raise AttributeError).
Proof.
  intros d earlier later fr Hfind Hok Hbad.
  assert (Hfr : frame_vmaf fr = Raise AttributeError).
  { destruct fr as [ |b|z|f|s|l|fd]; try reflexivity.
    simpl in *. destruct (dict_get fd "metrics" (JObj [])); try reflexivity;
      discriminate. }
  assert (Hmin : py_min (earlier ++ fr :: later) = Raise AttributeError).
  { destruct earlier as [|fr0 rest].
    - cbn [app py_min]. now rewrite Hfr.
    - simpl in Hok. apply andb_prop in Hok as [H0 Hrest].
      destruct (frame_ok_score fr0 H0) as (v0 & q0 & Hv0 & Hs0).
      cbn [app py_min]. rewrite Hv0. cbn [obind].
      rewrite min_loop_app.
      destruct (min_loop_spec rest v0 q0 Hs0 Hrest) as (lo & qlo & Hlo & _).
      rewrite Hlo. cbn [obind min_loop]. now rewrite Hfr. }
  unfold display_vmaf_frames, dict_mem, dict_get. rewrite Hfind.
  assert (Ht : truthy (JArr (earlier ++ fr :: later)) = true)
    by (destruct earlier; reflexivity).
  rewrite Ht. cbn [andb py_len py_iter].
  rewrite pbind_print, pbind_lift_ret, pbind_print, pbind_lift_ret.
  rewrite Hmin. reflexivity.
Qed.

Lemma display_vmaf_frames_malformed_witness :
  display_vmaf_frames
    [("frames", JArr (app [frame_of f_90] (JNull :: [frame_of f_95])))] =
  ([nl ++ "=== Frame-by-Frame Details ===";
    "Analyzed " ++ str_of_nat (List.length (app [frame_of f_90] (JNull :: [frame_of f_95])))
      ++ " frames"],
   Raise AttributeError).
Proof.
  exact (display_vmaf_frames_malformed
           [("frames", JArr (app [frame_of f_90] (JNull :: [frame_of f_95])))]
           [frame_of f_90] [frame_of f_95] JNull eq_refl eq_refl eq_refl).
Defined.

(* ================================================================= *)
(** * Further properties of the process *)

Lemma filter_prints (p : event -> bool) (lines : list string) :
  (forall s, p (EPrint s) = false) -> filter p (map EPrint lines) = [].
Proof.
  intro H. induction lines as [|l r IH]; [reflexivity|].
  simpl. now rewrite H, IH.
Qed.

Section ProcessFacts.

Variable World : Type.
Variable subprocess_run : list string -> World -> World * run_result.
Variable os_path_exists : string -> World -> bool.
Variable gettempdir : World -> string.
Variable os_path_join : string -> string -> string.
Variable json_loads : string -> loads_result.
Variable str_CalledProcessError : list string -> Z -> string.
Variable float_repr : spec_float -> string.
Variable encode_basestring_ascii : string -> string.

Local Abbreviation download :=
  (download_youtube_video World subprocess_run gettempdir os_path_join
     str_CalledProcessError).
Local Abbreviation compare :=
  (run_video_comparison World subprocess_run json_loads str_CalledProcessError).
Local Abbreviation resolve :=
  (resolve_reference World subprocess_run gettempdir os_path_join
     str_CalledProcessError).
Local Abbreviation main_ :=
  (main World subprocess_run os_path_exists gettempdir os_path_join json_loads
     str_CalledProcessError float_repr encode_basestring_ascii).
Local Abbreviation report_of results :=
  (display_results float_repr encode_basestring_ascii results).

(** The resolver, case by case. *)
Lemma resolve_reference_cases args w :
  resolve args w =
  match youtube args with
  | Some url =>
      if negb (String.eqb url EmptyString) then
        let out := match youtube_output args with
                   | None => os_path_join (gettempdir w) "youtube_download.mp4"
                   | Some p => p
                   end in
        let cmd := downloader_cmd url out in
        match subprocess_run cmd w with
        | (w', Completed _ _) => (w', download_prologue url out, Ret (Some out))
        | (w', CalledProcessError code _ _) =>
            (w', app (download_prologue url out)
                     [EPrint ("Error downloading YouTube video: "
                                ++ str_CalledProcessError cmd code)], Exit 1)
        | (w', RunRaised FileNotFoundError) =>
            (w', app (download_prologue url out)
                     [EPrint "Error: yt-dlp not found. Install it with: pip install yt-dlp"],
             Exit 1)
        | (w', RunRaised e) => (w', download_prologue url out, Raise e)
        end
      else (w, [], Ret (reference args))
  | None => (w, [], Ret (reference args))
  end.
Proof.
  unfold resolve_reference.
  destruct (youtube args) as [url|]; [|reflexivity].
  destruct (negb (String.eqb url EmptyString)); [|reflexivity].
  unfold bind.
  rewrite (download_youtube_video_cases World subprocess_run gettempdir
             os_path_join str_CalledProcessError url (youtube_output args) w).
  cbv zeta. fold (download_prologue url
                    (match youtube_output args with
                     | None => os_path_join (gettempdir w) "youtube_download.mp4"
                     | Some p => p
                     end)).
  destruct (subprocess_run _ w) as [w' [so se|code so se|e]];
    [reflexivity | reflexivity | destruct e; reflexivity].
Qed.

(** What [main] does after a resolution to [r], case by case. *)
Lemma main_after_resolution args w w1 l1 r :
  resolve args w = (w1, l1, Ret (Some r)) ->
  let d := distorted args in
  let cmd := engine_cmd r d (metrics args) in
  let pre := compare_prologue r d (metrics args) in
  main_ args w =
  if os_path_exists r w1 then
    if os_path_exists d w1 then
      match subprocess_run cmd w1 with
      | (w2, Completed stdout _) =>
          match json_loads stdout with
          | Parsed results =>
              (w2, app l1 (app [EExists r; EExists d]
                             (app pre (map EPrint (fst (report_of results))))),
               snd (report_of results))
          | DecodeError =>
              (w2, app l1 (app [EExists r; EExists d]
                             (app pre [EPrint ("Error parsing output. Raw output: "
                                                 ++ stdout)])), Exit 1)
          | LoadsRaised e =>
              (w2, app l1 (app [EExists r; EExists d] pre), Raise e)
          end
      | (w2, CalledProcessError code _ stderr) =>
          (w2, app l1 (app [EExists r; EExists d]
                         (app pre [EPrint ("Error running ffmpeg-quality-metrics: "
                                             ++ str_CalledProcessError cmd code);
                                   EPrint ("Command output: " ++ stderr)])), Exit 1)
      | (w2, RunRaised e) =>
          (w2, app l1 (app [EExists r; EExists d] pre), Raise e)
      end
    else (w1, app l1 [EExists r; EExists d;
                      EPrint ("Error: Video file not found: " ++ d)], Exit 1)
  else (w1, app l1 [EExists r; EPrint ("Error: Video file not found: " ++ r)],
        Exit 1).
Proof.
  intros Hres d cmd pre.
  rewrite (main_resolved World subprocess_run os_path_exists gettempdir
             os_path_join json_loads str_CalledProcessError float_repr
             encode_basestring_ascii args w w1 l1 r Hres).
  pose proof (check_files_cases World os_path_exists r d w1) as Hc.
  pose proof (run_video_comparison_cases World subprocess_run json_loads
                str_CalledProcessError r d (Some (metrics args)) w1) as Hrun.
  cbv beta iota zeta in Hrun. fold d in Hrun. fold cmd in Hrun. fold pre in Hrun.
  fold d.
  destruct (os_path_exists r w1); [destruct (os_path_exists d w1)|].
  - rewrite (bind_ret World _ _ _ _ _ _ Hc).
    destruct (subprocess_run cmd w1) as [w2 [so se|code so se|e]].
    + destruct (json_loads so) as [results| |e'].
      * rewrite (bind_ret World _ _ _ _ _ _ Hrun). reflexivity.
      * rewrite (bind_exit World _ _ _ _ _ _ Hrun). reflexivity.
      * rewrite (bind_raise World _ _ _ _ _ _ Hrun). reflexivity.
    + rewrite (bind_exit World _ _ _ _ _ _ Hrun). reflexivity.
    + rewrite (bind_raise World _ _ _ _ _ _ Hrun). reflexivity.
  - rewrite (bind_exit World _ _ _ _ _ _ Hc). reflexivity.
  - rewrite (bind_exit World _ _ _ _ _ _ Hc). reflexivity.
Qed.

(** What [main] does when the resolver does not return a path. *)
Lemma main_without_resolution args w w1 l1 :
  (resolve args w = (w1, l1, Ret None) -> main_ args w = (w1, l1, Raise TypeError)) /\
  (forall code, resolve args w = (w1, l1, Exit code) ->
                main_ args w = (w1, l1, Exit code)) /\
  (forall e, resolve args w = (w1, l1, Raise e) ->
             main_ args w = (w1, l1, Raise e)).
Proof.
  repeat split.
  - intro H. unfold main. rewrite (bind_ret World _ _ _ _ _ _ H).
    unfold world_of, log_of, outcome_of. cbn. now rewrite app_nil_r.
  - intros code H. unfold main. now rewrite (bind_exit World _ _ _ _ _ _ H).
  - intros e H. unfold main. now rewrite (bind_raise World _ _ _ _ _ _ H).
Qed.

(** What the resolver leaves in the trace. *)
Lemma resolve_trace_facts args w :
  (exists dl,
      filter is_run (log_of (resolve args w)) = dl /\
      (List.length dl <= 1)%nat /\ forallb is_downloader_call dl = true) /\
  existsb is_exists_check (log_of (resolve args w)) = false /\
  existsb is_banner (log_of (resolve args w)) = false /\
  (forall code, outcome_of (resolve args w) = Exit code -> code = 1).
Proof.
  rewrite resolve_reference_cases. cbv zeta.
  destruct (youtube args) as [url|];
    [destruct (negb (String.eqb url EmptyString));
     [match goal with
      | |- context [subprocess_run ?c w] =>
          destruct (subprocess_run c w) as [w' [so se|code so se|e]]
      end;
      [ | | destruct e] | ] | ];
    unfold log_of, outcome_of; cbn [fst snd];
    (split; [eexists; split; [reflexivity|]; split; [simpl; lia | reflexivity]|]);
    (split; [reflexivity|]); (split; [reflexivity|]);
    intros c H; first [discriminate H | now injection H as <-].
Qed.


(** X13.  The runner catches neither a missing engine executable nor
    any other exception of the call: once both files are found, such an
    exception escapes from [main] right after the prologue, with no
    diagnostic and no report. *)
Theorem engine_exception_escapes :
  forall (args : Args) (w w1 : World) (l1 : list event) (r : string) (e : exn),
    resolve args w = (w1, l1, Ret (Some r)) ->
    os_path_exists r w1 = true ->
    os_path_exists (distorted args) w1 = true ->
    snd (subprocess_run (engine_cmd r (distorted args) (metrics args)) w1)
    = RunRaised e ->
    main_ args w =
    (fst (subprocess_run (engine_cmd r (distorted args) (metrics args)) w1),
     app l1 (app [EExists r; EExists (distorted args)]
                 (compare_prologue r (distorted args) (metrics args))),
     Raise e).
Proof.
  intros args w w1 l1 r e Hres Hr Hd Hrun.
  rewrite (main_after_resolution args w w1 l1 r Hres). cbv zeta.
  rewrite Hr, Hd.
  destruct (subprocess_run _ w1) as [w2 res]. cbn [fst snd] in *. now subst res.
Qed.

(** X14.  Validation looks at the reference first and stops at the
    first missing file: the distorted path is checked only when the
    reference exists, and no other existence check is ever made. *)
Theorem validation_order :
  forall (args : Args) (w w1 : World) (l1 : list event) (r : string),
    resolve args w = (w1, l1, Ret (Some r)) ->
    filter is_exists_check (log_of (main_ args w)) =
    if os_path_exists r w1 then [EExists r; EExists (distorted args)]
    else [EExists r].
Proof.
  intros args w w1 l1 r Hres.
  destruct (resolve_trace_facts args w) as (_ & Hex & _).
  rewrite Hres in Hex. unfold log_of in Hex; cbn [fst snd] in Hex.
  assert (Hl1 : filter is_exists_check l1 = []).
  { clear - Hex. induction l1 as [|e l IH]; [reflexivity|].
    simpl in *. apply orb_false_elim in Hex as [He Hl]. rewrite He. auto. }
  rewrite (main_after_resolution args w w1 l1 r Hres). cbv zeta.
  destruct (os_path_exists r w1); [destruct (os_path_exists (distorted args) w1)|].
  - destruct (subprocess_run _ w1) as [w2 [so se|code so se|e]];
      [destruct (json_loads so) as [j| |e']| | ];
      unfold log_of; cbn [fst snd];
      rewrite !filter_app, Hl1, ?filter_prints by reflexivity; reflexivity.
  - unfold log_of; cbn [fst snd]. rewrite filter_app, Hl1. reflexivity.
  - unfold log_of; cbn [fst snd]. rewrite filter_app, Hl1. reflexivity.
Qed.

(** X15.  A successful run is the composition of its stages: the trace
    of the resolver, the two existence checks, the prologue and the call
    of the runner, then the lines of the report for the parsed document;
    the run ends the way the reporter ends. *)
Theorem main_success_trace :
  forall (args : Args) (w w1 w2 : World) (l1 : list event) (r : string)
         (stdout stderr : string) (results : json),
    resolve args w = (w1, l1, Ret (Some r)) ->
    os_path_exists r w1 = true ->
    os_path_exists (distorted args) w1 = true ->
    subprocess_run (engine_cmd r (distorted args) (metrics args)) w1
    = (w2, Completed stdout stderr) ->
    json_loads stdout = Parsed results ->
    main_ args w =
    (w2,
     app l1
       (app [EExists r; EExists (distorted args)]
          (app (compare_prologue r (distorted args) (metrics args))
               (map EPrint (fst (report_of results))))),
     snd (report_of results)).
Proof.
  intros args w w1 w2 l1 r so se results Hres Hr Hd Hrun Hj.
  rewrite (main_after_resolution args w w1 l1 r Hres). cbv zeta.
  now rewrite Hr, Hd, Hrun, Hj.
Qed.

(** X16.  A run starts at most two children, and in a fixed order: at
    most one downloader, then at most one metrics engine, and nothing
    else. *)
Theorem runs_at_most_two :
  forall (args : Args) (w : World),
    exists dl eng,
      filter is_run (log_of (main_ args w)) = app dl eng /\
      (List.length dl <= 1)%nat /\ (List.length eng <= 1)%nat /\
      forallb is_downloader_call dl = true /\
      forallb is_engine_call eng = true.
Proof.
  intros args w.
  destruct (resolve_trace_facts args w) as ((dl & Hdl & Hlen & Hall) & _).
  destruct (resolve args w) as [[w1 l1] [[r|]|code|e]] eqn:Hres;
    unfold log_of in Hdl; cbn [fst snd] in Hdl.
  - exists dl.
    rewrite (main_after_resolution args w w1 l1 r Hres). cbv zeta.
    destruct (os_path_exists r w1); [destruct (os_path_exists (distorted args) w1)|].
    + destruct (subprocess_run _ w1) as [w2 [so se|code so se|e]];
        [destruct (json_loads so) as [j| |e']| | ];
        unfold log_of; cbn [fst snd];
        rewrite !filter_app, Hdl, ?filter_prints by reflexivity;
        (eexists; split; [reflexivity|]);
        repeat split; auto; simpl; lia.
    + unfold log_of; cbn [fst snd]. rewrite filter_app, Hdl.
      eexists; split; [reflexivity|]. repeat split; auto; simpl; lia.
    + unfold log_of; cbn [fst snd]. rewrite filter_app, Hdl.
      eexists; split; [reflexivity|]. repeat split; auto; simpl; lia.
  - rewrite (proj1 (main_without_resolution args w w1 l1) Hres). exists dl, [].
    unfold log_of; cbn [fst snd]. rewrite app_nil_r.
    repeat split; auto; simpl; lia.
  - rewrite (proj1 (proj2 (main_without_resolution args w w1 l1)) code Hres). exists dl, [].
    unfold log_of; cbn [fst snd]. rewrite app_nil_r.
    repeat split; auto; simpl; lia.
  - rewrite (proj2 (proj2 (main_without_resolution args w w1 l1)) e Hres). exists dl, [].
    unfold log_of; cbn [fst snd]. rewrite app_nil_r.
    repeat split; auto; simpl; lia.
Qed.

(** X17.  Once the arguments are parsed, the only exit code the program
    passes to [sys.exit] is 1: in the downloader, in the validation loop
    and in the runner alike.  (The exits of [parse_args] itself, on a
    usage error or on [--help], come before [main] is entered here.) *)
Theorem main_exit_code_one :
  forall (args : Args) (w : World) (code : Z),
    outcome_of (main_ args w) = Exit code -> code = 1.
Proof.
  intros args w code.
  destruct (resolve_trace_facts args w) as (_ & _ & _ & Hone).
  destruct (resolve args w) as [[w1 l1] [[r|]|c|e]] eqn:Hres;
    unfold outcome_of in Hone; cbn [snd] in Hone.
  - rewrite (main_after_resolution args w w1 l1 r Hres). cbv zeta.
    destruct (os_path_exists r w1); [destruct (os_path_exists (distorted args) w1)|].
    + destruct (subprocess_run _ w1) as [w2 [so se|c so se|e]];
        [destruct (json_loads so) as [results| |e']| | ];
        unfold outcome_of; cbn [snd];
        try (intros [= <-]; reflexivity); try discriminate.
      intro H.
      pose proof (display_results_no_exit float_repr encode_basestring_ascii results)
        as Hno.
      rewrite H in Hno. discriminate.
    + unfold outcome_of; cbn [snd]. now intros [= <-].
    + unfold outcome_of; cbn [snd]. now intros [= <-].
  - rewrite (proj1 (main_without_resolution args w w1 l1) Hres). discriminate.
  - rewrite (proj1 (proj2 (main_without_resolution args w w1 l1)) c Hres). unfold outcome_of; cbn [snd].
    intros [= <-]. now apply Hone.
  - rewrite (proj2 (proj2 (main_without_resolution args w w1 l1)) e Hres). discriminate.
Qed.

Lemma In_banner l : In (EPrint banner) l -> existsb is_banner l = true.
Proof.
  intro H. apply existsb_exists. exists (EPrint banner). split; [exact H|].
  apply String.eqb_refl.
Qed.

(** X18.  The metrics engine is started exactly when the resolver has
    returned a path and both that path and the distorted path exist; and
    a report is only ever printed in a run that has started the engine. *)
Theorem engine_runs_iff_validated :
  forall (args : Args) (w : World),
    (existsb is_engine_call (log_of (main_ args w)) = true <->
     exists w1 l1 r,
       resolve args w = (w1, l1, Ret (Some r)) /\
       os_path_exists r w1 = true /\
       os_path_exists (distorted args) w1 = true) /\
    (In (EPrint banner) (log_of (main_ args w)) ->
     existsb is_engine_call (log_of (main_ args w)) = true).
Proof.
  intros args w.
  destruct (resolve_trace_facts args w) as (_ & _ & Hban & _).
  pose proof (resolve_no_engine World subprocess_run gettempdir os_path_join
                str_CalledProcessError args w) as Heng.
  destruct (resolve args w) as [[w1 l1] [[r|]|c|e]] eqn:Hres;
    unfold log_of in Hban, Heng; cbn [fst snd] in Hban, Heng.
  - rewrite (main_after_resolution args w w1 l1 r Hres). cbv zeta.
    destruct (os_path_exists r w1) eqn:Hr;
      [destruct (os_path_exists (distorted args) w1) eqn:Hd|].
    + assert (Hrun : forall tail,
                 existsb is_engine_call
                   (app l1 (app [EExists r; EExists (distorted args)]
                              (app (compare_prologue r (distorted args)
                                      (metrics args)) tail))) = true).
      { intro tail. rewrite !existsb_app.
        change (existsb is_engine_call
                  (compare_prologue r (distorted args) (metrics args))) with true.
        now rewrite ?orb_true_r. }
      destruct (subprocess_run _ w1) as [w2 [so se|c so se|e]];
        [destruct (json_loads so) as [results| |e']| | ];
        unfold log_of; cbn [fst snd];
        try rewrite <- (app_nil_r (compare_prologue r (distorted args) (metrics args)));
        rewrite Hrun;
        (split; [split; [intros _; exists w1, l1, r; auto | reflexivity]
                | reflexivity]).
    + unfold log_of; cbn [fst snd]. rewrite existsb_app, Heng. cbn.
      split; [split; [discriminate|]|].
      * intros (w1' & l1' & r' & [= <- <- <-] & _ & Hd'). congruence.
      * intro Hin. apply In_banner in Hin.
        rewrite existsb_app, Hban in Hin. discriminate Hin.
    + unfold log_of; cbn [fst snd]. rewrite existsb_app, Heng. cbn.
      split; [split; [discriminate|]|].
      * intros (w1' & l1' & r' & [= <- <- <-] & Hr' & _). congruence.
      * intro Hin. apply In_banner in Hin.
        rewrite existsb_app, Hban in Hin. discriminate Hin.
  - rewrite (proj1 (main_without_resolution args w w1 l1) Hres). unfold log_of; cbn [fst snd]. rewrite Heng.
    split; [split; [discriminate | intros (? & ? & ? & [=] & _)]|].
    intro Hin. apply In_banner in Hin. congruence.
  - rewrite (proj1 (proj2 (main_without_resolution args w w1 l1)) c Hres). unfold log_of; cbn [fst snd]. rewrite Heng.
    split; [split; [discriminate | intros (? & ? & ? & [=] & _)]|].
    intro Hin. apply In_banner in Hin. congruence.
  - rewrite (proj2 (proj2 (main_without_resolution args w w1 l1)) e Hres). unfold log_of; cbn [fst snd]. rewrite Heng.
    split; [split; [discriminate | intros (? & ? & ? & [=] & _)]|].
    intro Hin. apply In_banner in Hin. congruence.
Qed.

End ProcessFacts.

(** ** Sample runs, continued *)

Lemma engine_exception_escapes_witness :
  demo_main demo_run_no_engine args_local ["ref.mp4"; "dist.mp4"] =
  (["ref.mp4"; "dist.mp4"],
   app [] (app [EExists "ref.mp4"; EExists "dist.mp4"]
              (compare_prologue "ref.mp4" "dist.mp4" ["vmaf"])),
   Raise FileNotFoundError).
Proof.
  exact (engine_exception_escapes (list string) demo_run_no_engine demo_exists
           demo_tempdir demo_join demo_loads demo_error_str plain_float_repr
           plain_encode args_local ["ref.mp4"; "dist.mp4"] ["ref.mp4"; "dist.mp4"]
           [] "ref.mp4" FileNotFoundError eq_refl eq_refl eq_refl eq_refl).
Defined.

Lemma validation_order_witness :
  filter is_exists_check (log_of (demo_main demo_run args_local ["dist.mp4"])) =
  [EExists "ref.mp4"].
Proof.
  exact (validation_order (list string) demo_run demo_exists demo_tempdir
           demo_join demo_loads demo_error_str plain_float_repr plain_encode
           args_local ["dist.mp4"] ["dist.mp4"] [] "ref.mp4" eq_refl).
Defined.

Lemma main_success_trace_witness :
  demo_main demo_run args_youtube ["dist.mp4"] =
  (["/tmp/youtube_download.mp4"; "dist.mp4"],
   app (download_prologue "https://youtu.be/x" "/tmp/youtube_download.mp4")
     (app [EExists "/tmp/youtube_download.mp4"; EExists "dist.mp4"]
        (app (compare_prologue "/tmp/youtube_download.mp4" "dist.mp4" ["vmaf"])
             (map EPrint (fst (display_results plain_float_repr plain_encode doc_vmaf))))),
   snd (display_results plain_float_repr plain_encode doc_vmaf)).
Proof.
  exact (main_success_trace (list string) demo_run demo_exists demo_tempdir
           demo_join demo_loads demo_error_str plain_float_repr plain_encode
           args_youtube ["dist.mp4"]
           ["/tmp/youtube_download.mp4"; "dist.mp4"]
           ["/tmp/youtube_download.mp4"; "dist.mp4"]
           (download_prologue "https://youtu.be/x" "/tmp/youtube_download.mp4")
           "/tmp/youtube_download.mp4" "<vmaf report>" EmptyString doc_vmaf
           eq_refl eq_refl eq_refl eq_refl eq_refl).
Defined.

Lemma main_exit_code_one_witness :
  outcome_of (demo_main demo_run_no_downloader args_youtube ["dist.mp4"]) = Exit 1 /\
  (1 = 1)%Z.
Proof.
  split; [reflexivity|].
  exact (main_exit_code_one (list string) demo_run_no_downloader demo_exists
           demo_tempdir demo_join demo_loads demo_error_str plain_float_repr
           plain_encode args_youtube ["dist.mp4"] 1 eq_refl).
Defined.

(* ================================================================= *)
(** * The [.Nf] format rounds to nearest *)

(** The integer the format prints is a nearest one: it is at most one
    half away from the scaled value, and when the scaled value lies
    exactly half-way between two integers the even one is taken. *)
Lemma round_half_even_nearest :
  forall q : Q,
    (Qabs (inject_Z (round_half_even q) - q) <= 1 # 2)%Q /\
    ((Qabs (inject_Z (round_half_even q) - q) == 1 # 2)%Q ->
     Z.even (round_half_even q) = true).
Proof.
  intros [n d]. unfold round_half_even. cbn [Qnum Qden].
  pose proof (Z.div_mod n (Z.pos d) ltac:(lia)) as Hdm.
  pose proof (Z.mod_pos_bound n (Z.pos d) ltac:(lia)) as Hr.
  set (fl := n / Z.pos d) in *. set (r := n mod Z.pos d) in *.
  clearbody fl r.
  assert (Habs : forall N : Z,
             (Qabs (inject_Z N - (n # d)) == (Z.abs (N * Z.pos d - n) # d))%Q).
  { intro N. unfold Qabs, Qminus, Qplus, Qopp, inject_Z, Qeq. cbn [Qnum Qden].
    rewrite Pos.mul_1_l. f_equal. f_equal. lia. }
  destruct (Z.compare_spec (2 * r) (Z.pos d)) as [E|E|E].
  - destruct (Z.even fl) eqn:Ev.
    + split; [|intros _; exact Ev].
      rewrite Habs. unfold Qle; cbn [Qnum Qden]. nia.
    + split.
      * rewrite Habs. unfold Qle; cbn [Qnum Qden]. nia.
      * intros _. replace (fl + 1) with (Z.succ fl) by lia.
        rewrite Z.even_succ, <- Z.negb_even, Ev. reflexivity.
  - split.
    + rewrite Habs. unfold Qle; cbn [Qnum Qden]. nia.
    + rewrite Habs. unfold Qeq; cbn [Qnum Qden]. nia.
  - split.
    + rewrite Habs. unfold Qle; cbn [Qnum Qden]. nia.
    + rewrite Habs. unfold Qeq; cbn [Qnum Qden]. nia.
Qed.

Lemma Qabs_sub_Z (N n : Z) (d : positive) :
  (Qabs (inject_Z N - (n # d)) == (Z.abs (N * Z.pos d - n) # d))%Q.
Proof.
  unfold Qabs, Qminus, Qplus, Qopp, inject_Z, Qeq. cbn [Qnum Qden].
  rewrite Pos.mul_1_l. f_equal. f_equal. lia.
Qed.

(** There is one nearest integer with the tie rule, and rounding finds it. *)
Lemma round_half_even_unique q N :
  nearest_integer q N -> round_half_even q = N.
Proof.
  destruct (round_half_even_nearest q) as [Hle Htie].
  set (R := round_half_even q) in *. clearbody R.
  destruct q as [n d]. unfold nearest_integer.
  rewrite !Qabs_sub_Z in *.
  unfold Qle, Qlt, Qeq in *; cbn [Qnum Qden] in *.
  intros [Hlt | [Heq Hev]].
  - assert (Hd : - Z.pos d < (R - N) * Z.pos d < Z.pos d) by lia. nia.
  - destruct (Z.eq_dec (Z.abs (R * Z.pos d - n) * 2) (1 * Z.pos d)) as [E|E].
    + specialize (Htie E).
      apply Z.even_spec in Htie as [r Hr]. apply Z.even_spec in Hev as [k Hk].
      subst R N.
      assert (Hd : - Z.pos d <= (2 * r - 2 * k) * Z.pos d <= Z.pos d) by lia.
      nia.
    + assert (Hd : - Z.pos d < (R - N) * Z.pos d < Z.pos d) by lia. nia.
Qed.

(** X19.  The [.Nf] format rounds to nearest: whenever [N] is the
    integer nearest to the magnitude of a finite float scaled by [10^n]
    (the even one on an exact tie), the text of the float with [n]
    decimals is its sign followed by the fixed-point digits of [N].
    That text is what the score line shows for [n = 2] and what a
    "psnr" or "ssim" component line shows for [n = 4]. *)
Theorem format_f_nearest :
  forall (n : nat) (s : bool) (m : positive) (e : Z) (N : Z),
    nearest_integer (mag_Q m e * inject_Z (10 ^ Z.of_nat n)) N ->
    format_f n (JFloat (S754_finite s m e)) =
    Ret (sign_str s ++ fixed_digits n N) /\
    (n = 2%nat ->
     forall d, dict_find "mean" d = Some (JFloat (S754_finite s m e)) ->
     exists rest,
       display_vmaf_score d =
       (("VMAF Score: " ++ (sign_str s ++ fixed_digits 2 N) ++ " / 100.0") :: rest,
        Ret tt)) /\
    (n = 4%nat ->
     forall metric component, component <> "frames" ->
     display_components metric [(component, JFloat (S754_finite s m e))] =
     ([upper metric ++ " " ++ component ++ ": "
         ++ (sign_str s ++ fixed_digits 4 N)], Ret tt)).
Proof.
  intros n s m e N Hn.
  assert (Hfmt : format_f n (JFloat (S754_finite s m e)) =
                 Ret (sign_str s ++ fixed_digits n N)).
  { cbn [format_f format_float]. now rewrite (round_half_even_unique _ N Hn). }
  repeat match goal with |- _ /\ _ => split end.
  - exact Hfmt.
  - intros -> d Hfind.
    assert (Hq : ~ ((if s then Qopp (mag_Q m e) else mag_Q m e) == 0)%Q).
    { pose proof (mag_Q_pos m e). destruct s; intro Hz; [|lra].
      assert (mag_Q m e == 0)%Q
        by (rewrite <- (Qopp_involutive (mag_Q m e)), Hz; reflexivity).
      lra. }
    rewrite (display_vmaf_score_nonzero d (JFloat (S754_finite s m e)) _
               Hfind eq_refl Hq eq_refl).
    unfold fmt. rewrite Hfmt. eexists. reflexivity.
  - intros -> metric component Hkey.
    cbn [display_components]. apply String.eqb_neq in Hkey. rewrite Hkey.
    cbn [negb]. rewrite Hfmt, pbind_lift_ret.
    rewrite (pbind_fst_ret (print _) _ tt eq_refl). reflexivity.
Qed.

(** 45.12345 to four decimals: the nearest integer to the scaled double
    is 451234. *)
Lemma format_f_nearest_witness :
  format_f 4 (JFloat f_45_12345) = Ret "45.1234" /\
  display_components "psnr" [("psnr_avg", JFloat f_45_12345)] =
  (["PSNR psnr_avg: 45.1234"], Ret tt).
Proof.
  assert (Hn : nearest_integer
                 (mag_Q 6350561018927225 (-47) * inject_Z (10 ^ Z.of_nat 4))
                 451234)
    by (left; vm_compute; reflexivity).
  destruct (format_f_nearest 4 false 6350561018927225 (-47) 451234 Hn)
    as (H1 & _ & H4).
  split; [exact H1|].
  refine (H4 eq_refl "psnr" "psnr_avg" _). discriminate.
Defined.

(** ** Sample runs: an output that [json.loads] refuses to convert *)

(** The engine exits zero and prints an integer literal of 4301 digits:
    [json.loads] raises [ValueError], which line 56 does not catch; the
    runner neither returns nor exits with code 1, and prints no
    diagnostic. *)
Lemma long_integer_escapes :
  snd (demo_run_long_integer (engine_cmd "ref.mp4" "dist.mp4" ["vmaf"]) [])
  = Completed (ones 4301) EmptyString /\
  run_video_comparison (list string) demo_run_long_integer demo_loads
    demo_error_str "ref.mp4" "dist.mp4" None [] =
  ([], compare_prologue "ref.mp4" "dist.mp4" ["vmaf"], Raise ValueError).
Proof. split; vm_compute; reflexivity. Qed.
